(** * zcert: a local development certificate authority

    A shallow embedding of the Go packages [zgo.at/zcert] and
    [zgo.at/zcert/truststore], and the properties of the root authority,
    leaf issuance, the TLS certificate selector and the trust-store
    backends that were checked against it.

    Layout: the Go runtime and standard-library model ([Go]), the error
    group ([errors]), the trust-store package ([truststore]), the
    authority ([zcert]), the vocabulary of the statements ([Spec]) and
    concrete machines to run the model on ([Examples]); then the
    theorems.

    Conventions.
    - A Go function returning [error] returns [option error]; [None] is nil.
    - A function that reads or mutates the process or the machine (files,
      entropy, the clock, package-level variables, child processes) is a
      state transformer over [World].
    - What the machine is (operating system, environment variables, the
      programs installed, what a child process does) is the class [Host].
    - Calls that end the goroutine or the process ([panic], [log.Fatal])
      are outcomes of their own, see [outcome]. *)

From Stdlib Require Import ZArith String Ascii List Lia Bool.
From stdpp Require Import base option list strings pretty gmap.

Set Warnings "-register-all".

(* ===================================================================== *)
(** * The Go model                                                        *)
(* ===================================================================== *)

Module Go.

(** ** Errors *)

(** [errorString] is what [errors.New] and a [fmt.Errorf] without [%w]
    build; [wrapError] is [fmt.Errorf] with a trailing [%w]; [groupError]
    is a [*zcert.Group] used as an error (package [errors] below). *)
Inductive error : Type :=
| errorString (msg : string)
| wrapError (prefix : string) (err : error)
| groupError (MaxSize : Z) (errs : list error) (nerrs : Z).

(** How a call ends: it returns, it panics (a run-time panic unwinds the
    goroutine), or the process exits ([os.Exit], as in [log.Fatalln]). *)
Inductive outcome (A : Type) : Type :=
| Returns (a : A)
| Panics (msg : string)
| Exits (code : Z).
Arguments Returns {A} a.
Arguments Panics {A} msg.
Arguments Exits {A} code.

(** ** Strings *)

Definition quote : string := String (ascii_of_nat 34) EmptyString.

(** [fmt]'s [%q] verb on a string without characters to escape. *)
Definition fmt_q (s : string) : string := quote +:+ s +:+ quote.

Fixpoint hasPrefix (s pre : string) : bool :=
  match pre, s with
  | EmptyString, _ => true
  | String a pre', String b s' => if Ascii.eqb a b then hasPrefix s' pre' else false
  | String _ _, EmptyString => false
  end.

(** [bytes.Contains] / [strings.Contains]. *)
Fixpoint Contains (s sub : string) : bool :=
  hasPrefix s sub ||
  match s with
  | EmptyString => false
  | String _ s' => Contains s' sub
  end.

(** [strings.HasSuffix]. *)
Definition HasSuffix (s suf : string) : bool :=
  hasPrefix (String.rev s) (String.rev suf).

(** ** Paths

    A path is kept as the sequence of elements that [filepath.Join] put
    together, the first element being the directory an environment
    variable named; the empty path is Go's empty string. *)
Definition path := list string.

Definition path_of_string (s : string) : path :=
  if decide (s = "") then [] else [s].

Definition filepath_Join (p : path) (elems : list string) : path := p ++ elems.

Definition filepath_Dir (p : path) : path := removelast p.

Definition path_String (p : path) : string := String.concat "/" p.

(** ** Time *)

Record Time := { t_year : Z; t_rest : Z }.

(** [t.AddDate(years, 0, 0)]; the normalisation of 29 February is left
    out. *)
Definition AddDate_years (t : Time) (years : Z) : Time :=
  {| t_year := (t_year t + years)%Z; t_rest := t_rest t |}.

(** ** Keys and certificates, symbolically

    An ECDSA P-256 private key is its scalar; the public key of a scalar
    is a free constructor over it, so two keys match exactly when the
    scalars are equal.  DER and PEM encodings are free constructors too:
    decoding inverts encoding and fails on everything else. *)

Record ecdsaPrivateKey := { D : Z }.
Record ecdsaPublicKey := { ofScalar : Z }.

Definition Public (k : ecdsaPrivateKey) : ecdsaPublicKey := {| ofScalar := D k |}.

#[global] Instance ecdsaPrivateKey_eq_dec : EqDecision ecdsaPrivateKey.
Proof. solve_decision. Defined.
#[global] Instance ecdsaPublicKey_eq_dec : EqDecision ecdsaPublicKey.
Proof. solve_decision. Defined.

(** [pkix.Name], the fields this program sets. *)
Record Name := {
  Organization : list string;
  OrganizationalUnit : list string;
  CommonName : string
}.

Definition emptyName : Name :=
  {| Organization := []; OrganizationalUnit := []; CommonName := "" |}.

#[global] Instance Name_eq_dec : EqDecision Name.
Proof. solve_decision. Defined.

Inductive ExtKeyUsage :=
| ExtKeyUsageServerAuth
| ExtKeyUsageClientAuth
| ExtKeyUsageCodeSigning
| ExtKeyUsageEmailProtection.

Definition KeyUsageDigitalSignature : Z := Z.shiftl 1 0.
Definition KeyUsageKeyEncipherment : Z := Z.shiftl 1 2.
Definition KeyUsageCertSign : Z := Z.shiftl 1 5.

(** [net.IP]: the bytes of the address. *)
Definition IP := list Z.

(** [mail.Address]. *)
Record Address := { addr_Name : string; addr_Address : string }.

(** [url.URL], the fields this program reads, and the rest of the parse. *)
Record URL := { Scheme : string; Host_ : string; url_rest : string }.

(** [x509.Certificate], as a template and as a parsed certificate.
    [PublicKey] is nil in a template that never set it; [Issuer] and
    [SignedBy] are filled by signing ([SignedBy] is the key under which
    the signature verifies). *)
Record Certificate := {
  SerialNumber : Z;
  Subject : Name;
  SubjectKeyId : option ecdsaPublicKey;   (* SHA-1 of the key bits *)
  NotBefore : Time;
  NotAfter : Time;
  KeyUsage : Z;
  ExtKeyUsages : list ExtKeyUsage;
  BasicConstraintsValid : bool;
  IsCA : bool;
  MaxPathLenZero : bool;
  IPAddresses : list IP;
  EmailAddresses : list string;
  URIs : list URL;
  DNSNames : list string;
  PublicKey : option ecdsaPublicKey;
  Issuer : Name;
  SignedBy : option ecdsaPublicKey
}.

Inductive der :=
| derCertificate (c : Certificate)
| derPKCS8 (k : ecdsaPrivateKey)
| derOther (n : nat).

(** [pem.Block]. *)
Record Block := { Type_ : string; Bytes : der }.

(** Property lists ([howett.net/plist]) as decoded into [interface{}]:
    a dictionary is a [map[string]interface{}], kept as an association
    list whose order stands for the order in which [range] visits it. *)
Inductive blob :=
| blobName (n : Name)          (* asn1.Marshal of an RDN sequence *)
| blobRaw (l : list Z).

Inductive plistValue :=
| plUint (n : Z)
| plInt (n : Z)
| plString (s : string)
| plData (b : blob)
| plArray (l : list plistValue)
| plDict (m : list (string * plistValue)).

(** File and buffer contents: what a byte string decodes to. *)
Inductive chunk :=
| pemChunk (b : Block)
| plistChunk (v : plistValue)
| textChunk (s : string).

Definition bytes := list chunk.

Definition pem_EncodeToMemory (b : Block) : bytes := [pemChunk b].

(** [pem.Decode]: the first PEM block and what follows it; no block,
    and the input is handed back. *)
Fixpoint pem_find (data : bytes) : option (Block * bytes) :=
  match data with
  | [] => None
  | pemChunk b :: rest => Some (b, rest)
  | _ :: rest => pem_find rest
  end.

Definition pem_Decode (data : bytes) : option Block * bytes :=
  match pem_find data with
  | Some (b, rest) => (Some b, rest)
  | None => (None, data)
  end.

(** [plist.Unmarshal] into a [map[string]interface{}]. *)
Definition plist_Unmarshal (data : bytes) : option (list (string * plistValue)) :=
  match data with
  | [plistChunk (plDict m)] => Some m
  | _ => None
  end.

Definition plist_MarshalIndent (m : list (string * plistValue)) : bytes :=
  [plistChunk (plDict m)].

(** [x509.ParseCertificate], [x509.MarshalPKCS8PrivateKey] and the
    private-key parser of [crypto/tls]. *)
Definition x509_ParseCertificate (d : der) : Certificate + error :=
  match d with
  | derCertificate c => inl c
  | _ => inr (errorString "x509: malformed certificate")
  end.

Definition x509_MarshalPKCS8PrivateKey (k : ecdsaPrivateKey) : der := derPKCS8 k.

Definition tls_parsePrivateKey (d : der) : ecdsaPrivateKey + error :=
  match d with
  | derPKCS8 k => inl k
  | _ => inr (errorString "tls: failed to parse private key")
  end.

(** [tls.Certificate]. *)
Record tlsCertificate := {
  tls_Certificate : list der;
  tls_PrivateKey : option ecdsaPrivateKey
}.

Definition emptyTLSCertificate : tlsCertificate :=
  {| tls_Certificate := []; tls_PrivateKey := None |}.

(** The certificate blocks of a PEM input, in order. *)
Fixpoint certBlocks (fuel : nat) (data : bytes) : list der :=
  match fuel with
  | O => []
  | S fuel' =>
    match pem_Decode data with
    | (None, _) => []
    | (Some b, rest) =>
      if decide (Type_ b = "CERTIFICATE")
      then Bytes b :: certBlocks fuel' rest
      else certBlocks fuel' rest
    end
  end.

(** The first private-key block of a PEM input. *)
Fixpoint keyBlock (fuel : nat) (data : bytes) : option Block :=
  match fuel with
  | O => None
  | S fuel' =>
    match pem_Decode data with
    | (None, _) => None
    | (Some b, rest) =>
      if bool_decide (Type_ b = "PRIVATE KEY") || HasSuffix (Type_ b) " PRIVATE KEY"
      then Some b
      else keyBlock fuel' rest
    end
  end.

(** [tls.X509KeyPair]. *)
Definition tls_X509KeyPair (certPEMBlock keyPEMBlock : bytes) : tlsCertificate + error :=
  let certs := certBlocks (S (length certPEMBlock)) certPEMBlock in
  match certs with
  | [] => inr (errorString "tls: failed to find any PEM data in certificate input")
  | c0 :: _ =>
    match keyBlock (S (length keyPEMBlock)) keyPEMBlock with
    | None => inr (errorString "tls: failed to find any PEM data in key input")
    | Some kb =>
      match x509_ParseCertificate c0 with
      | inr e => inr e
      | inl x509Cert =>
        match tls_parsePrivateKey (Bytes kb) with
        | inr e => inr e
        | inl priv =>
          if decide (PublicKey x509Cert = Some (Public priv))
          then inl {| tls_Certificate := certs; tls_PrivateKey := Some priv |}
          else inr (errorString "tls: private key does not match public key")
        end
      end
    end
  end.

(** What [x509.CreateCertificate] signs: the template's fields, the
    subject's key, the parent's subject as issuer. *)
Definition signedCertificate (template parent : Certificate)
    (pub : ecdsaPublicKey) (priv : ecdsaPrivateKey) : Certificate :=
  {| SerialNumber := SerialNumber template; Subject := Subject template;
     SubjectKeyId := SubjectKeyId template;
     NotBefore := NotBefore template; NotAfter := NotAfter template;
     KeyUsage := KeyUsage template; ExtKeyUsages := ExtKeyUsages template;
     BasicConstraintsValid := BasicConstraintsValid template;
     IsCA := IsCA template; MaxPathLenZero := MaxPathLenZero template;
     IPAddresses := IPAddresses template; EmailAddresses := EmailAddresses template;
     URIs := URIs template; DNSNames := DNSNames template;
     PublicKey := Some pub; Issuer := Subject parent;
     SignedBy := Some (Public priv) |}.

(** The parent names a key and the signing key is another one. *)
Definition keyMismatch (parent : Certificate) (priv : ecdsaPrivateKey) : bool :=
  match PublicKey parent with
  | Some ppub => negb (bool_decide (ppub = Public priv))
  | None => false
  end.

(** ** Child processes *)

(** [exec.Cmd]: [Err] is the failed look-up of the program, if any. *)
Record Cmd := {
  Path : string;
  Args : list string;
  Env : list string;
  Stdin : bytes;
  Err : option error
}.

(** ** The file system

    Permission modes are recorded, not enforced: a call fails for what
    is or is not there (a missing parent, a directory where a file is
    meant, a directory that is not empty), never for a lack of
    permission or a failing device. *)

(** A permission mode from its three octal digits: [mode 7 5 5] is 0755. *)
Definition mode (u g o : Z) : Z := (u * 64 + g * 8 + o)%Z.

Inductive node :=
| File (perm : Z) (data : bytes)
| Dir (perm : Z).

Definition FS := gmap path node.

(** ** The Windows certificate store (crypt32.dll)

    A certificate context of the store, with what the calls on it will
    answer: whether duplicating it and deleting it fail. *)
Record CertContext := {
  EncodedCert : der;
  dupFails : bool;
  deleteFails : bool
}.

(** The system store named ROOT: whether it opens, its certificates in
    enumeration order, and the error number the enumeration ends with. *)
Record RootStore := {
  openFails : bool;
  certs : list CertContext;
  enumErrno : Z
}.

Definition CRYPT_E_NOT_FOUND : Z := 0x80092004%Z.

(** ** The world: everything the program can read or change *)

Record World := {
  fs : gmap path node;            (* files and directories *)
  rnd : list Z;                   (* what crypto/rand.Reader will yield *)
  clock : Time;                   (* time.Now *)
  stdout : list string;
  stderr : list string;
  execlog : list Cmd;             (* the child processes run so far *)
  privWarning : bool;             (* truststore.privWarning, a sync.Once *)
  userInfo : option string;       (* zcert.getUser and zcert.userInfo *)
  tmpseq : nat;                   (* names handed out by ioutil.TempFile *)
  heap : list tlsCertificate;     (* allocated *tls.Certificate values *)
  crypt32 : RootStore             (* the Windows ROOT store *)
}.

Definition set_fs (f : gmap path node) (w : World) : World :=
  {| fs := f; rnd := rnd w; clock := clock w; stdout := stdout w; stderr := stderr w;
     execlog := execlog w; privWarning := privWarning w; userInfo := userInfo w;
     tmpseq := tmpseq w; heap := heap w; crypt32 := crypt32 w |}.
Definition set_rnd (r : list Z) (w : World) : World :=
  {| fs := fs w; rnd := r; clock := clock w; stdout := stdout w; stderr := stderr w;
     execlog := execlog w; privWarning := privWarning w; userInfo := userInfo w;
     tmpseq := tmpseq w; heap := heap w; crypt32 := crypt32 w |}.
Definition set_stdout (o : list string) (w : World) : World :=
  {| fs := fs w; rnd := rnd w; clock := clock w; stdout := o; stderr := stderr w;
     execlog := execlog w; privWarning := privWarning w; userInfo := userInfo w;
     tmpseq := tmpseq w; heap := heap w; crypt32 := crypt32 w |}.
Definition set_stderr (o : list string) (w : World) : World :=
  {| fs := fs w; rnd := rnd w; clock := clock w; stdout := stdout w; stderr := o;
     execlog := execlog w; privWarning := privWarning w; userInfo := userInfo w;
     tmpseq := tmpseq w; heap := heap w; crypt32 := crypt32 w |}.
Definition set_execlog (l : list Cmd) (w : World) : World :=
  {| fs := fs w; rnd := rnd w; clock := clock w; stdout := stdout w; stderr := stderr w;
     execlog := l; privWarning := privWarning w; userInfo := userInfo w;
     tmpseq := tmpseq w; heap := heap w; crypt32 := crypt32 w |}.
Definition set_privWarning (b : bool) (w : World) : World :=
  {| fs := fs w; rnd := rnd w; clock := clock w; stdout := stdout w; stderr := stderr w;
     execlog := execlog w; privWarning := b; userInfo := userInfo w;
     tmpseq := tmpseq w; heap := heap w; crypt32 := crypt32 w |}.
Definition set_userInfo (u : option string) (w : World) : World :=
  {| fs := fs w; rnd := rnd w; clock := clock w; stdout := stdout w; stderr := stderr w;
     execlog := execlog w; privWarning := privWarning w; userInfo := u;
     tmpseq := tmpseq w; heap := heap w; crypt32 := crypt32 w |}.
Definition set_tmpseq (n : nat) (w : World) : World :=
  {| fs := fs w; rnd := rnd w; clock := clock w; stdout := stdout w; stderr := stderr w;
     execlog := execlog w; privWarning := privWarning w; userInfo := userInfo w;
     tmpseq := n; heap := heap w; crypt32 := crypt32 w |}.
Definition set_crypt32 (s : RootStore) (w : World) : World :=
  {| fs := fs w; rnd := rnd w; clock := clock w; stdout := stdout w; stderr := stderr w;
     execlog := execlog w; privWarning := privWarning w; userInfo := userInfo w;
     tmpseq := tmpseq w; heap := heap w; crypt32 := s |}.

(** State transformers, with stdpp's monad notation. *)
Definition M (A : Type) : Type := World -> A * World.

#[global] Instance M_ret : MRet M := fun A a w => (a, w).
#[global] Instance M_bind : MBind M :=
  fun A B k m w => let '(a, w') := m w in k a w'.

(** ** The machine *)

Inductive OS := linux | darwin | windows | otherOS (name : string).

#[global] Instance OS_eq_dec : EqDecision OS.
Proof. solve_decision. Defined.

(** [user.User]. *)
Record User := { Uid : string; Username : string; user_Name : string }.

Class Host := {
  GOOS : OS;                                   (* runtime.GOOS *)
  Getenv : string -> string;                   (* os.Getenv *)
  user_Current : option User;                  (* os/user.Current *)
  os_Hostname : option string;                 (* os.Hostname *)
  exec_LookPath : string -> option string;     (* os/exec.LookPath *)
  (** what the [n]-th child process prints (standard output and error
      together), whether it fails, and what it does to the files *)
  run : nat -> Cmd -> gmap path node -> (string * option error) * gmap path node
}.

(** The three parsers of the standard library that classify a requested
    name: [net.ParseIP], [mail.ParseAddress] and [url.Parse]. *)
Class Parsers := {
  net_ParseIP : string -> option IP;
  mail_ParseAddress : string -> option Address;
  url_Parse : string -> option URL
}.

Section Runtime.
Context `{Host}.

(** *** os *)

Definition os_Stat (p : path) : M (option node) := fun w =>
  (match p with [] => None | _ => fs w !! p end, w).

Fixpoint MkdirAll_from (pre : path) (rest : list string) (perm : Z)
    (f : gmap path node) : option error * gmap path node :=
  match rest with
  | [] => (None, f)
  | c :: rest' =>
    let p := pre ++ [c] in
    match f !! p with
    | Some (Dir _) => MkdirAll_from p rest' perm f
    | Some (File _ _) => (Some (errorString "mkdir: not a directory"), f)
    | None => MkdirAll_from p rest' perm (<[p := Dir perm]> f)
    end
  end.

(** [os.MkdirAll]: every missing directory on the way is created; a file
    on the way is an error, and what was created before it stays. *)
Definition os_MkdirAll (p : path) (perm : Z) : M (option error) := fun w =>
  let '(e, f) := MkdirAll_from [] p perm (fs w) in (e, set_fs f w).

(** [ioutil.WriteFile]: create with [perm], or truncate an existing
    file, whose mode stays. *)
Definition ioutil_WriteFile (p : path) (data : bytes) (perm : Z) : M (option error) := fun w =>
  match p with
  | [] => (Some (errorString "open: no such file or directory"), w)
  | _ =>
    match fs w !! p with
    | Some (File m _) => (None, set_fs (<[p := File m data]> (fs w)) w)
    | Some (Dir _) => (Some (errorString "open: is a directory"), w)
    | None =>
      match fs w !! filepath_Dir p with
      | Some (Dir _) => (None, set_fs (<[p := File perm data]> (fs w)) w)
      | _ => (Some (errorString "open: no such file or directory"), w)
      end
    end
  end.

Definition ioutil_ReadFile (p : path) : M (bytes + error) := fun w =>
  match p with
  | [] => (inr (errorString "open: no such file or directory"), w)
  | _ =>
    match fs w !! p with
    | Some (File _ d) => (inl d, w)
    | Some (Dir _) => (inr (errorString "read: is a directory"), w)
    | None => (inr (errorString "open: no such file or directory"), w)
    end
  end.

(** Does [p] hold anything? *)
Definition hasEntries (p : path) (f : gmap path node) : bool :=
  negb (bool_decide (map_Forall (fun q _ => q = [] \/ filepath_Dir q <> p) f)).

(** [os.Remove]: a file, or an empty directory. *)
Definition os_Remove (p : path) : M (option error) := fun w =>
  match p with
  | [] => (Some (errorString "remove: no such file or directory"), w)
  | _ =>
    match fs w !! p with
    | None => (Some (errorString "remove: no such file or directory"), w)
    | Some (File _ _) => (None, set_fs (delete p (fs w)) w)
    | Some (Dir _) =>
      if hasEntries p (fs w)
      then (Some (errorString "remove: directory not empty"), w)
      else (None, set_fs (delete p (fs w)) w)
    end
  end.

(** *** crypto/rand, crypto/ecdsa, crypto/x509, time *)

(** One read of [rand.Reader]; the reader fails when it has run dry. *)
Definition rand_Read : M (Z + error) := fun w =>
  match rnd w with
  | [] => (inr (errorString "crypto/rand: entropy source failed"), w)
  | v :: r => (inl v, set_rnd r w)
  end.

(** [rand.Int(rand.Reader, max)]. *)
Definition rand_Int (max : Z) : M (Z + error) :=
  r ← rand_Read;
  match r with
  | inl v => mret (inl (v mod max)%Z)
  | inr e => mret (inr e)
  end.

(** [ecdsa.GenerateKey(elliptic.P256(), rand.Reader)]. *)
Definition ecdsa_GenerateKey : M (ecdsaPrivateKey + error) :=
  r ← rand_Read;
  match r with
  | inl v => mret (inl {| D := v |})
  | inr e => mret (inr e)
  end.

Definition time_Now : M Time := fun w => (clock w, w).

(** [x509.CreateCertificate(rand.Reader, template, parent, pub, priv)]:
    refuses a signing key that is not the parent's, reads the reader for
    the signature, and yields the template's fields under the parent's
    subject as issuer. *)
Definition x509_CreateCertificate (template parent : Certificate)
    (pub : ecdsaPublicKey) (priv : ecdsaPrivateKey) : M (der + error) :=
  if keyMismatch parent priv
  then mret (inr (errorString "x509: provided PrivateKey doesn't match parent's PublicKey"))
  else
    r ← rand_Read;
    match r with
    | inr e => mret (inr e)
    | inl _ => mret (inl (derCertificate (signedCertificate template parent pub priv)))
    end.

(** [tls.LoadX509KeyPair]. *)
Definition tls_LoadX509KeyPair (certFile keyFile : path) : M (tlsCertificate + error) :=
  c ← ioutil_ReadFile certFile;
  match c with
  | inr e => mret (inr e)
  | inl certPEMBlock =>
    k ← ioutil_ReadFile keyFile;
    match k with
    | inr e => mret (inr e)
    | inl keyPEMBlock => mret (tls_X509KeyPair certPEMBlock keyPEMBlock)
    end
  end.

(** *** os/exec *)

Definition hasSeparator (name : string) : bool :=
  existsb (Ascii.eqb "/"%char) (list_ascii_of_string name).

(** [exec.Command]: a bare program name is looked up on the search path. *)
Definition exec_Command (name : string) (args : list string) : Cmd :=
  if hasSeparator name then
    {| Path := name; Args := name :: args; Env := []; Stdin := []; Err := None |}
  else
    match exec_LookPath name with
    | Some lp => {| Path := lp; Args := name :: args; Env := []; Stdin := []; Err := None |}
    | None =>
      {| Path := name; Args := name :: args; Env := []; Stdin := [];
         Err := Some (errorString "exec: executable file not found in $PATH") |}
    end.

(** [cmd.CombinedOutput]: a command whose look-up failed is not started. *)
Definition CombinedOutput (cmd : Cmd) : M (string * option error) := fun w =>
  match Err cmd with
  | Some e => (("", Some e), w)
  | None =>
    let '(r, f) := run (length (execlog w)) cmd (fs w) in
    (r, set_execlog (execlog w ++ [cmd]) (set_fs f w))
  end.

(** [os.TempDir] on a Unix system. *)
Definition os_TempDir : path :=
  if decide (Getenv "TMPDIR" = "") then ["/tmp"] else [Getenv "TMPDIR"].

(** [ioutil.TempFile(dir, pattern)]: a new, empty file with a name not
    handed out before; the names are numbered here, and a name that is
    taken is an error. *)
Definition ioutil_TempFile (dir : path) (pattern : string) : M (path + error) := fun w =>
  let dir := match dir with [] => os_TempDir | _ => dir end in
  let name := filepath_Join dir [pattern +:+ pretty (tmpseq w)] in
  match fs w !! name, fs w !! dir with
  | None, Some (Dir _) =>
    (inl name, set_tmpseq (S (tmpseq w)) (set_fs (<[name := File (mode 6 0 0) []]> (fs w)) w))
  | Some _, _ => (inr (errorString "open: file exists"), w)
  | None, _ => (inr (errorString "open: no such file or directory"), w)
  end.

(** [log.Fatalln]: the message goes to standard error and the process
    exits with status 1; no deferred call runs. *)
Definition log_Fatalln {A : Type} (msg : string) : M (outcome A) := fun w =>
  (Exits 1, set_stderr (stderr w ++ [msg]) w).

Definition newline : string := String (ascii_of_nat 10) EmptyString.

Definition fmt_Print (s : string) : M unit := fun w =>
  (tt, set_stdout (stdout w ++ [s]) w).

Definition fmt_Fprint_stderr (s : string) : M unit := fun w =>
  (tt, set_stderr (stderr w ++ [s]) w).

End Runtime.

End Go.

(* ===================================================================== *)
(** * errors.go: a group of errors                                        *)
(* ===================================================================== *)

Module errors.
Import Go.

(** [Group]; the mutex guards [errs] and [nerrs] and has no content of
    its own in a sequential run. *)
Record Group := { MaxSize : Z; errs : list error; nerrs : Z }.

Definition NewGroup (maxSize : Z) : Group :=
  {| MaxSize := maxSize; errs := []; nerrs := 0 |}.

Definition Len (g : Group) : Z := Z.of_nat (length (errs g)).

(** [e.Error()]. *)
Fixpoint Error_ (e : error) : string :=
  match e with
  | errorString msg => msg
  | wrapError prefix err => prefix +:+ Error_ err
  | groupError _ es _ =>
    (fix lines (l : list error) : string :=
       match l with
       | [] => ""
       | x :: l' => Error_ x +:+ String (ascii_of_nat 10) (lines l')
       end) es
  end.

Definition asError (g : Group) : error := groupError (MaxSize g) (errs g) (nerrs g).

Definition Error (g : Group) : string := Error_ (asError g).

(** [g.Append(err)]: whether something was appended, and the group. *)
Definition Append (g : Group) (err : option error) : bool * Group :=
  match err with
  | None => (false, g)
  | Some e =>
    (true,
     {| MaxSize := MaxSize g;
        errs := if bool_decide (MaxSize g = 0%Z) || (Len g <? MaxSize g)%Z
                then errs g ++ [e] else errs g;
        nerrs := (nerrs g + 1)%Z |})
  end.

Definition ErrorOrNil (g : Group) : option error :=
  if bool_decide (Len g = 0%Z) then None else Some (asError g).

End errors.

(* ===================================================================== *)
(** * Package truststore                                                  *)
(* ===================================================================== *)

Module truststore.
Import Go.

Section Truststore.
Context `{Host}.

(** ** truststore.go *)

(** The interface [Store], over the type [T] of a backend. *)
Class StoreImpl (T : Type) := {
  Name : T -> string;
  OnSystem : T -> M bool;
  Verbose : T -> bool -> T;
  HasCert : T -> Certificate -> M bool;
  Install : T -> path -> Certificate -> M (outcome (option error));
  Uninstall : T -> path -> Certificate -> M (outcome (option error))
}.

(** A value of the interface: a backend together with its methods. *)
Record Store := mkStore {
  store_type : Type;
  store_impl : StoreImpl store_type;
  store_val : store_type
}.

Definition store_Name (s : Store) : string :=
  @Name _ (store_impl s) (store_val s).
Definition store_OnSystem (s : Store) : M bool :=
  @OnSystem _ (store_impl s) (store_val s).
Definition store_Verbose (s : Store) (v : bool) : Store :=
  mkStore (store_type s) (store_impl s) (@Verbose _ (store_impl s) (store_val s) v).
Definition store_Install (s : Store) (rootCert : path) (cacert : Certificate)
    : M (outcome (option error)) :=
  @Install _ (store_impl s) (store_val s) rootCert cacert.
Definition store_Uninstall (s : Store) (rootCert : path) (cacert : Certificate)
    : M (outcome (option error)) :=
  @Uninstall _ (store_impl s) (store_val s) rootCert cacert.

(** [Find]: the backends of [known] (in the source the five of the
    package, in this order: NSS, Java, Unix, Darwin, Windows) that are on
    the system, each with its verbosity set; [storeEnabled] is nil. *)
Fixpoint Find (known : list Store) (verbose : bool) : M (list Store) :=
  match known with
  | [] => mret []
  | t :: known' =>
    b ← store_OnSystem t;
    stores ← Find known' verbose;
    mret (if b : bool then store_Verbose t verbose :: stores else stores)
  end.

Definition caName (caCert : Certificate) : string :=
  "zcert development CA " +:+ pretty (SerialNumber caCert).

Definition pathExists (p : path) : M bool :=
  st ← os_Stat p; mret (bool_decide (is_Some st)).

Definition binaryExists (name : string) : bool :=
  bool_decide (is_Some (exec_LookPath name)).

Definition runningAsRoot : bool :=
  match user_Current with
  | Some u => bool_decide (Uid u = "0")
  | None => false
  end.

Definition privWarningText : string :=
  "zcert: sudo or doas not available and not running as root; the (un)install might fail".

(** [privCmd(cmd...)], for a command of at least its program name
    ([cmd[0]] is [name], [cmd[1:]] is [args]). *)
Definition privCmd (name : string) (args : list string) : M Cmd :=
  if runningAsRoot then mret (exec_Command name args)
  else if binaryExists "sudo" then
    mret (exec_Command "sudo" (["--prompt=Sudo password:"; "--"] ++ name :: args))
  else if binaryExists "doas" then
    mret (exec_Command "doas" (["--"] ++ name :: args))
  else fun w =>
    (exec_Command name args,
     if privWarning w then w
     else set_privWarning true (set_stderr (stderr w ++ [privWarningText]) w)).


(** ** nss.go *)



(** ** java.go *)



(** ** ts_nonunix.go, the part built on Windows *)

Record Windows := { windows_verbose : bool }.

Definition openWindowsRootStore : M (option error) := fun w =>
  (if openFails (crypt32 w)
   then Some (errorString "Failed to open windows root store")
   else None, w).

(** The loop of [deleteCertsWithSerial] over what is left to enumerate:
    the flag, the error, and what stays in the store. *)
Fixpoint deleteCertsWithSerial_loop (serial : Z) (enum : list CertContext)
    (errno : Z) (deletedAny : bool) : (bool * option error) * list CertContext :=
  match enum with
  | [] =>
    if bool_decide (errno = CRYPT_E_NOT_FOUND)
    then ((deletedAny, None), [])
    else ((deletedAny, Some (errorString "enumerating certs")), [])
  | cert :: rest =>
    let matches :=
      match x509_ParseCertificate (EncodedCert cert) with
      | inl parsedCert => bool_decide (SerialNumber parsedCert = serial)
      | inr _ => false                      (* parse failures are ignored *)
      end in
    if matches then
      if dupFails cert then
        ((deletedAny, Some (errorString "duplicating context")), cert :: rest)
      else if deleteFails cert then
        ((deletedAny, Some (errorString "deleting certificate")), cert :: rest)
      else deleteCertsWithSerial_loop serial rest errno true
    else
      let '(r, kept) := deleteCertsWithSerial_loop serial rest errno deletedAny in
      (r, cert :: kept)
  end.

Definition deleteCertsWithSerial (serial : Z) : M (bool * option error) := fun w =>
  let st := crypt32 w in
  let '(r, kept) := deleteCertsWithSerial_loop serial (certs st) (enumErrno st) false in
  (r, set_crypt32 {| openFails := openFails st; certs := kept; enumErrno := enumErrno st |} w).

(** [Windows.Uninstall].  The error assigned when nothing was deleted is
    the local [err]; the function then returns nil.  The deferred
    [store.close()] has no part in what is returned. *)
Definition Windows_Uninstall (t : Windows) (rootCert : path) (caCert : Certificate)
    : M (option error) :=
  err ← openWindowsRootStore;
  match err with
  | Some e => mret (Some (wrapError "truststore.Windows: open root store: " e))
  | None =>
    '(deletedAny, err) ← deleteCertsWithSerial (SerialNumber caCert);
    match err with
    | Some e => mret (Some (wrapError "truststore.Windows: delete cert: " e))
    | None =>
      let err := if negb deletedAny
                 then Some (errorString "truststore.Windows: no certs found")
                 else err in
      mret None
    end
  end.

(** ** ts_darwin.go *)

Record Darwin := { darwin_verbose : bool }.

(** The value [plist.Unmarshal] leaves in the package variable
    [trustSettings]. *)
Definition trustSettings : plistValue :=
  plArray
    [ plDict [ ("kSecTrustSettingsPolicy", plData (blobRaw [42; 134; 72; 134; 247; 99; 100; 1; 3]%Z));
               ("kSecTrustSettingsPolicyName", plString "sslServer");
               ("kSecTrustSettingsResult", plUint 1) ];
      plDict [ ("kSecTrustSettingsPolicy", plData (blobRaw [42; 134; 72; 134; 247; 99; 100; 1; 2]%Z));
               ("kSecTrustSettingsPolicyName", plString "basicX509");
               ("kSecTrustSettingsResult", plUint 1) ] ].

(** [m[k]] and [m[k] = v] on a [map[string]interface{}]. *)
Fixpoint mapIndex (m : list (string * plistValue)) (k : string) : option plistValue :=
  match m with
  | [] => None
  | (k', v) :: m' => if decide (k' = k) then Some v else mapIndex m' k
  end.

Fixpoint mapAssign (m : list (string * plistValue)) (k : string) (v : plistValue)
    : list (string * plistValue) :=
  match m with
  | [] => [(k, v)]
  | (k', v') :: m' => if decide (k' = k) then (k, v) :: m' else (k', v') :: mapAssign m' k v
  end.

(** [asn1.Marshal(caCert.Subject.ToRDNSequence())]. *)
Definition rootSubjectASN1 (caCert : Certificate) : blob := blobName (Subject caCert).

#[global] Instance blob_eq_dec : EqDecision blob.
Proof. solve_decision. Defined.

(** The loop over [trustList]: the entries in the order [range] visits
    them; the first entry issued by the root gets the trust settings. *)
Fixpoint patchTrustList (subject : blob) (trustList : list (string * plistValue))
    : outcome (list (string * plistValue)) :=
  match trustList with
  | [] => Returns []
  | (key, v) :: rest =>
    let continue :=
      match patchTrustList subject rest with
      | Returns rest' => Returns ((key, v) :: rest')
      | Panics msg => Panics msg
      | Exits c => Exits c
      end in
    match v with
    | plDict entry =>
      match mapIndex entry "issuerName" with
      | None => continue
      | Some (plData issuerName) =>
        if decide (subject = issuerName)
        then Returns ((key, plDict (mapAssign entry "trustSettings" trustSettings)) :: rest)
        else continue
      | Some _ => Panics "interface conversion: interface {} is not []uint8"
      end
    | _ => Panics "interface conversion: interface {} is not map[string]interface {}"
    end
  end.

(** From the type assertion on [trustVersion] to the end of the loop. *)
Definition patchTrustSettings (caCert : Certificate) (plistRoot : list (string * plistValue))
    : M (outcome (list (string * plistValue))) :=
  match mapIndex plistRoot "trustVersion" with
  | Some (plUint v) =>
    if bool_decide (v ≠ 1%Z)
    then log_Fatalln "ERROR: unsupported trust settings version:"
    else
      match mapIndex plistRoot "trustList" with
      | Some (plDict trustList) =>
        match patchTrustList (rootSubjectASN1 caCert) trustList with
        | Returns trustList' =>
          mret (Returns (mapAssign plistRoot "trustList" (plDict trustList')))
        | Panics msg => mret (Panics msg)
        | Exits c => mret (Exits c)
        end
      | _ => mret (Panics "interface conversion: interface {} is not map[string]interface {}")
      end
  | _ => mret (Panics "interface conversion: interface {} is not uint64")
  end.

(** [Darwin.Install] once the temporary file exists. *)
Definition Darwin_Install_with (plistFile : path) (caCert : Certificate)
    : M (outcome (option error)) :=
  cmd ← privCmd "security" ["trust-settings-export"; "-d"; path_String plistFile];
  '(_, err) ← CombinedOutput cmd;
  match err with
  | Some e => mret (Returns (Some e))
  | None =>
    d ← ioutil_ReadFile plistFile;
    match d with
    | inr e => mret (Returns (Some (wrapError "read trust settings: " e)))
    | inl plistData =>
      (* a parse error only builds an error value that is dropped; the
         map stays nil *)
      let plistRoot := match plist_Unmarshal plistData with
                       | Some m => m
                       | None => []
                       end in
      r ← patchTrustSettings caCert plistRoot;
      match r with
      | Panics msg => mret (Panics msg)
      | Exits c => mret (Exits c)
      | Returns plistRoot =>
        let plistData := plist_MarshalIndent plistRoot in
        err ← ioutil_WriteFile plistFile plistData (mode 6 0 0);
        match err with
        | Some e => mret (Returns (Some e))
        | None =>
          cmd ← privCmd "security" ["trust-settings-import"; "-d"; path_String plistFile];
          '(_, err) ← CombinedOutput cmd;
          match err with
          | Some e => mret (Returns (Some e))
          | None => mret (Returns None)
          end
        end
      end
    end
  end.

(** [Darwin.Install]; the deferred [os.Remove] runs on a return and on a
    panic, not on an exit of the process. *)
Definition Darwin_Install (t : Darwin) (rootCert : path) (caCert : Certificate)
    : M (outcome (option error)) :=
  cmd ← privCmd "security"
          ["add-trusted-cert"; "-d"; "-k"; "/Library/Keychains/System.keychain";
           path_String rootCert];
  '(_, err) ← CombinedOutput cmd;
  match err with
  | Some e => mret (Returns (Some e))
  | None =>
    tf ← ioutil_TempFile [] "trust-settings";
    match tf with
    | inr e => mret (Returns (Some e))
    | inl plistFile =>
      r ← Darwin_Install_with plistFile caCert;
      match r with
      | Exits c => mret (Exits c)
      | _ => _ ← os_Remove plistFile; mret r
      end
    end
  end.

Definition Darwin_HasCert (t : Darwin) (caCert : Certificate) : M bool := mret false.

Definition Darwin_Uninstall (t : Darwin) (rootCert : path) (caCert : Certificate)
    : M (outcome (option error)) := mret (Returns None).

#[global] Instance Darwin_Store : StoreImpl Darwin := {
  Name _ := "Darwin";
  OnSystem _ := mret (bool_decide (GOOS = darwin));
  Verbose _ v := {| darwin_verbose := v |};
  HasCert := Darwin_HasCert;
  Install := Darwin_Install;
  Uninstall := Darwin_Uninstall
}.

(** ** ts_nondarwin.go and ts_nonwindows.go: the backend of another
    system is a stub that is never on the system. *)
Inductive Stub := stub (name : string).

#[global] Instance Stub_Store : StoreImpl Stub := {
  Name '(stub name) := name;
  OnSystem _ := mret false;
  Verbose t _ := t;
  HasCert _ _ := mret false;
  Install _ _ _ := mret (Returns (Some (errorString "dummy")));
  Uninstall _ _ _ := mret (Returns (Some (errorString "dummy")))
}.

End Truststore.
End truststore.

(* ===================================================================== *)
(** * Package zcert                                                       *)
(* ===================================================================== *)

Module zcert.
Import Go errors truststore.

(** [CARoot]: [cert] and [key] are nil until [Create] or [Load] ran. *)
Record CARoot := {
  Verbose : bool;
  cert : option Certificate;
  key : option ecdsaPrivateKey
}.

(** [var ca CARoot]. *)
Definition zeroCARoot : CARoot := {| Verbose := false; cert := None; key := None |}.

Definition set_IPAddresses (v : list IP) (c : Certificate) : Certificate :=
  {| SerialNumber := SerialNumber c; Subject := Subject c; SubjectKeyId := SubjectKeyId c;
     NotBefore := NotBefore c; NotAfter := NotAfter c; KeyUsage := KeyUsage c;
     ExtKeyUsages := ExtKeyUsages c; BasicConstraintsValid := BasicConstraintsValid c;
     IsCA := IsCA c; MaxPathLenZero := MaxPathLenZero c;
     IPAddresses := v; EmailAddresses := EmailAddresses c; URIs := URIs c;
     DNSNames := DNSNames c; PublicKey := PublicKey c; Issuer := Issuer c;
     SignedBy := SignedBy c |}.
Definition set_EmailAddresses (v : list string) (c : Certificate) : Certificate :=
  {| SerialNumber := SerialNumber c; Subject := Subject c; SubjectKeyId := SubjectKeyId c;
     NotBefore := NotBefore c; NotAfter := NotAfter c; KeyUsage := KeyUsage c;
     ExtKeyUsages := ExtKeyUsages c; BasicConstraintsValid := BasicConstraintsValid c;
     IsCA := IsCA c; MaxPathLenZero := MaxPathLenZero c;
     IPAddresses := IPAddresses c; EmailAddresses := v; URIs := URIs c;
     DNSNames := DNSNames c; PublicKey := PublicKey c; Issuer := Issuer c;
     SignedBy := SignedBy c |}.
Definition set_URIs (v : list URL) (c : Certificate) : Certificate :=
  {| SerialNumber := SerialNumber c; Subject := Subject c; SubjectKeyId := SubjectKeyId c;
     NotBefore := NotBefore c; NotAfter := NotAfter c; KeyUsage := KeyUsage c;
     ExtKeyUsages := ExtKeyUsages c; BasicConstraintsValid := BasicConstraintsValid c;
     IsCA := IsCA c; MaxPathLenZero := MaxPathLenZero c;
     IPAddresses := IPAddresses c; EmailAddresses := EmailAddresses c; URIs := v;
     DNSNames := DNSNames c; PublicKey := PublicKey c; Issuer := Issuer c;
     SignedBy := SignedBy c |}.
Definition set_DNSNames (v : list string) (c : Certificate) : Certificate :=
  {| SerialNumber := SerialNumber c; Subject := Subject c; SubjectKeyId := SubjectKeyId c;
     NotBefore := NotBefore c; NotAfter := NotAfter c; KeyUsage := KeyUsage c;
     ExtKeyUsages := ExtKeyUsages c; BasicConstraintsValid := BasicConstraintsValid c;
     IsCA := IsCA c; MaxPathLenZero := MaxPathLenZero c;
     IPAddresses := IPAddresses c; EmailAddresses := EmailAddresses c; URIs := URIs c;
     DNSNames := v; PublicKey := PublicKey c; Issuer := Issuer c;
     SignedBy := SignedBy c |}.
Definition set_ExtKeyUsage (v : list ExtKeyUsage) (c : Certificate) : Certificate :=
  {| SerialNumber := SerialNumber c; Subject := Subject c; SubjectKeyId := SubjectKeyId c;
     NotBefore := NotBefore c; NotAfter := NotAfter c; KeyUsage := KeyUsage c;
     ExtKeyUsages := v; BasicConstraintsValid := BasicConstraintsValid c;
     IsCA := IsCA c; MaxPathLenZero := MaxPathLenZero c;
     IPAddresses := IPAddresses c; EmailAddresses := EmailAddresses c; URIs := URIs c;
     DNSNames := DNSNames c; PublicKey := PublicKey c; Issuer := Issuer c;
     SignedBy := SignedBy c |}.
Definition set_CommonName (v : string) (c : Certificate) : Certificate :=
  {| SerialNumber := SerialNumber c;
     Subject := {| Organization := Organization (Subject c);
                   OrganizationalUnit := OrganizationalUnit (Subject c);
                   CommonName := v |};
     SubjectKeyId := SubjectKeyId c;
     NotBefore := NotBefore c; NotAfter := NotAfter c; KeyUsage := KeyUsage c;
     ExtKeyUsages := ExtKeyUsages c; BasicConstraintsValid := BasicConstraintsValid c;
     IsCA := IsCA c; MaxPathLenZero := MaxPathLenZero c;
     IPAddresses := IPAddresses c; EmailAddresses := EmailAddresses c; URIs := URIs c;
     DNSNames := DNSNames c; PublicKey := PublicKey c; Issuer := Issuer c;
     SignedBy := SignedBy c |}.

(** [io.Writer], over the type of the writer. *)
Class Writer (W : Type) := {
  Write : W -> bytes -> M (option error * W)
}.

(** [bytes.Buffer]: writing appends and does not fail. *)
#[global] Instance Buffer_Writer : Writer bytes := {
  Write b p := mret (None, b ++ p)
}.

Section Zcert.
Context `{Host} `{Parsers}.

(** [StorePath]: certificate and key. *)
Definition StorePath : path * path :=
  let dir : option path :=
    if bool_decide (Getenv "CAROOT" ≠ "") then Some (path_of_string (Getenv "CAROOT"))
    else if bool_decide (GOOS = windows) then Some (path_of_string (Getenv "LocalAppData"))
    else if bool_decide (Getenv "XDG_DATA_HOME" ≠ "")
      then Some (path_of_string (Getenv "XDG_DATA_HOME"))
    else if bool_decide (GOOS = darwin) then
      let dir := path_of_string (Getenv "HOME") in
      if bool_decide (dir = []) then None
      else Some (filepath_Join dir ["Library"; "Application Support"])
    else
      let dir := path_of_string (Getenv "HOME") in
      if bool_decide (dir = []) then None
      else Some (filepath_Join dir [".local"; "share"]) in
  match dir with
  | None => ([], [])
  | Some dir =>
    if bool_decide (dir = []) then ([], [])
    else
      let dir := filepath_Join dir ["zcert"] in
      (filepath_Join dir ["rootCA.pem"], filepath_Join dir ["rootCA-key.pem"])
  end.

(** [userAndHostname]: computed once per process. *)
Definition userAndHostname : M string := fun w =>
  match userInfo w with
  | Some s => (s, w)
  | None =>
    let ret := match user_Current with
               | Some u => Username u +:+ "@"
               | None => ""
               end in
    let ret := match os_Hostname with
               | Some h => ret +:+ h
               | None => ret
               end in
    let ret := match user_Current with
               | Some u =>
                 if bool_decide (user_Name u ≠ "") && bool_decide (user_Name u ≠ Username u)
                 then ret +:+ " (" +:+ user_Name u +:+ ")"
                 else ret
               | None => ret
               end in
    (ret, set_userInfo (Some ret) w)
  end.

Definition pathExists (p : path) : M bool :=
  st ← os_Stat p; mret (bool_decide (is_Some st)).

Definition randomSerialNumber : M (Z + error) := rand_Int (Z.shiftl 1 128).

Definition generateKey : M (ecdsaPrivateKey + error) := ecdsa_GenerateKey.

(** [Exists]: looks at the certificate only. *)
Definition Exists (ca : CARoot) : M bool :=
  let '(rootCert, _) := StorePath in
  pathExists rootCert.

Definition with_root (ca : CARoot) (c : Certificate) (k : ecdsaPrivateKey) : CARoot :=
  {| Verbose := Verbose ca; cert := Some c; key := Some k |}.

(** [Create], on a pointer receiver: the error and the receiver after
    the call. *)
Definition Create (ca : CARoot) : M (option error * CARoot) :=
  let '(rootCert, rootKey) := StorePath in
  if bool_decide (rootCert = []) then
    mret (Some (errorString
      "zcert.Create: can't find a location to store the root certificate; set CAROOT"), ca)
  else
  ex ← Exists ca;
  if ex : bool then
    mret (Some (errorString ("zcert.Create: CA root already exists at "
                             +:+ fmt_q (path_String rootCert))), ca)
  else
  err ← os_MkdirAll (filepath_Dir rootCert) (mode 7 5 5);
  match err with
  | Some e => mret (Some (wrapError "zcert.Create: " e), ca)
  | None =>
  k ← generateKey;
  match k with
  | inr e => mret (Some (wrapError "zcert.Create: generating private key: " e), ca)
  | inl privKey =>
  let pubKey := Public privKey in
  (* MarshalPKIXPublicKey and asn1.Unmarshal of an ECDSA key succeed *)
  s ← randomSerialNumber;
  match s with
  | inr e => mret (Some (wrapError "zcert.Create: generating serial number: " e), ca)
  | inl serial =>
  let skid := Some pubKey in
  ou ← userAndHostname;
  cn ← userAndHostname;
  notAfter ← time_Now;
  notBefore ← time_Now;
  let tpl :=
    {| SerialNumber := serial;
       Subject := {| Organization := ["zcert development CA"];
                     OrganizationalUnit := [ou];
                     CommonName := "zcert " +:+ cn |};
       SubjectKeyId := skid;
       NotAfter := AddDate_years notAfter 10;
       NotBefore := notBefore;
       KeyUsage := KeyUsageCertSign;
       ExtKeyUsages := [];
       BasicConstraintsValid := true;
       IsCA := true;
       MaxPathLenZero := true;
       IPAddresses := []; EmailAddresses := []; URIs := []; DNSNames := [];
       PublicKey := None; Issuer := emptyName; SignedBy := None |} in
  c ← x509_CreateCertificate tpl tpl pubKey privKey;
  match c with
  | inr e => mret (Some (wrapError "zcert.Create: generate CA certificate: " e), ca)
  | inl cert =>
  let privDER := x509_MarshalPKCS8PrivateKey privKey in
  err ← ioutil_WriteFile rootKey
          (pem_EncodeToMemory {| Type_ := "PRIVATE KEY"; Bytes := privDER |}) (mode 4 0 0);
  match err with
  | Some e => mret (Some (wrapError "zcert.Create: save CA key: " e), ca)
  | None =>
  err ← ioutil_WriteFile rootCert
          (pem_EncodeToMemory {| Type_ := "CERTIFICATE"; Bytes := cert |}) (mode 6 4 4);
  match err with
  | Some e => mret (Some (wrapError "zcert.Create: save CA certificate: " e), ca)
  | None => mret (None, with_root ca tpl privKey)
  end end end end end end.

(** [Load], on a pointer receiver. *)
Definition Load (ca : CARoot) : M (option error * CARoot) :=
  ex ← Exists ca;
  if negb ex then
    mret (Some (errorString "zcert.Load: CA certificate doesn't exist"), ca)
  else
  let '(rootCert, rootKey) := StorePath in
  c ← tls_LoadX509KeyPair rootCert rootKey;
  match c with
  | inr e => mret (Some (wrapError "zcert.Load: " e), ca)
  | inl cert =>
    match tls_Certificate cert, tls_PrivateKey cert with
    | [], _ => mret (Some (errorString "zcert.Load: no certificates in rootCA"), ca)
    | c0 :: _, priv =>
      match x509_ParseCertificate c0 with
      | inr e => mret (Some (wrapError "zcert.Load: " e), ca)
      | inl pc => mret (None, {| Verbose := Verbose ca; cert := Some pc; key := priv |})
      end
    end
  end.

(** [New]: the authority, whether it was created, the error. *)
Definition New : M (CARoot * bool * option error) :=
  let ca := zeroCARoot in
  ex ← Exists ca;
  if negb ex then
    '(err, ca) ← Create ca;
    mret (ca, true, err)
  else
    '(err, ca) ← Load ca;
    mret (ca, false, err).

Definition Certificate_ (ca : CARoot) : option Certificate := cert ca.

(** [Delete]. *)
Definition Delete (ca : CARoot) : M (option error) :=
  ex ← Exists ca;
  if negb ex then mret None
  else
  let '(rootCert, rootKey) := StorePath in
  err ← os_Remove rootCert;
  match err with
  | Some e => mret (Some (wrapError "zcert.Delete: " e))
  | None =>
  err ← os_Remove rootKey;
  match err with
  | Some e => mret (Some (wrapError "zcert.Delete: " e))
  | None =>
  err ← os_Remove (filepath_Dir rootCert);
  match err with
  | Some e => mret (Some (wrapError "zcert.Delete: " e))
  | None => mret None
  end end end.

(** The loop of [Install] over the stores found. *)
Fixpoint Install_loop (stores : list Store) (rootCert : path) (cacert : Certificate)
    (errs : Group) : M (outcome Group) :=
  match stores with
  | [] => mret (Returns errs)
  | s :: stores' =>
    _ ← fmt_Print ("Installing for " +:+ store_Name s +:+ "..." +:+ newline);
    r ← store_Install s rootCert cacert;
    match r with
    | Returns err =>
      let '(_, errs) := Append errs err in
      _ ← fmt_Print ("  done" +:+ newline);
      Install_loop stores' rootCert cacert errs
    | Panics msg => mret (Panics msg)
    | Exits c => mret (Exits c)
    end
  end.

Definition nilDereference {A : Type} : outcome A :=
  Panics "runtime error: invalid memory address or nil pointer dereference".

(** [Install]; [known] are the backends [truststore.Find] chooses from. *)
Definition Install (known : list Store) (ca : CARoot) : M (outcome (option error)) :=
  '(err, ca) ← (if bool_decide (cert ca = None) then Load ca else mret (None, ca));
  match err with
  | Some e => mret (Returns (Some e))
  | None =>
    stores ← Find known (Verbose ca);
    if bool_decide (length stores = 0%nat) then
      mret (Returns (Some (errorString "no compatible truststores found")))
    else
      let '(rootCert, _) := StorePath in
      let errs := NewGroup 0 in
      match cert ca with
      | None => mret nilDereference
      | Some cacert =>
        r ← Install_loop stores rootCert cacert errs;
        match r with
        | Returns errs => mret (Returns (ErrorOrNil errs))
        | Panics msg => mret (Panics msg)
        | Exits c => mret (Exits c)
        end
      end
  end.

Fixpoint Uninstall_loop (stores : list Store) (rootCert : path) (cacert : Certificate)
    (errs : Group) : M (outcome Group) :=
  match stores with
  | [] => mret (Returns errs)
  | s :: stores' =>
    _ ← fmt_Print ("Uninstalling for " +:+ store_Name s +:+ newline);
    r ← store_Uninstall s rootCert cacert;
    match r with
    | Returns err =>
      let '(_, errs) := Append errs err in
      Uninstall_loop stores' rootCert cacert errs
    | Panics msg => mret (Panics msg)
    | Exits c => mret (Exits c)
    end
  end.

(** [Uninstall]. *)
Definition Uninstall (known : list Store) (ca : CARoot) : M (outcome (option error)) :=
  '(err, ca) ← (if bool_decide (cert ca = None) then Load ca else mret (None, ca));
  match err with
  | Some e => mret (Returns (Some e))
  | None =>
    stores ← Find known (Verbose ca);
    if bool_decide (length stores = 0%nat) then
      mret (Returns (Some (errorString "no compatible truststores found")))
    else
      let '(rootCert, _) := StorePath in
      let errs := NewGroup 0 in
      match cert ca with
      | None => mret nilDereference
      | Some cacert =>
        r ← Uninstall_loop stores rootCert cacert errs;
        match r with
        | Returns errs => mret (Returns (ErrorOrNil errs))
        | Panics msg => mret (Panics msg)
        | Exits c => mret (Exits c)
        end
      end
  end.

(** The three tests of the loop over [hosts] in [MakeCert]. *)
Definition exactEmail (h : string) : bool :=
  match mail_ParseAddress h with
  | Some email => bool_decide (addr_Address email = h)
  | None => false
  end.

Definition absoluteURI (h : string) : option URL :=
  match url_Parse h with
  | Some uriName =>
    if bool_decide (Scheme uriName ≠ "") && bool_decide (Host_ uriName ≠ "")
    then Some uriName else None
  | None => None
  end.

(** One round of the loop over [hosts]. *)
Definition addHost (tpl : Certificate) (h : string) : Certificate :=
  match net_ParseIP h with
  | Some ip => set_IPAddresses (IPAddresses tpl ++ [ip]) tpl
  | None =>
    if exactEmail h then set_EmailAddresses (EmailAddresses tpl ++ [h]) tpl
    else
      match absoluteURI h with
      | Some uriName => set_URIs (URIs tpl ++ [uriName]) tpl
      | None => set_DNSNames (DNSNames tpl ++ [h]) tpl
      end
  end.

(** The extended key usages and the common name, after the loop.
    [hosts[0]] of an empty slice is a run-time panic. *)
Definition setUsages (clientCert : bool) (hosts : list string) (tpl : Certificate)
    : outcome Certificate :=
  let tpl :=
    if clientCert then
      let tpl := set_ExtKeyUsage [ExtKeyUsageClientAuth; ExtKeyUsageServerAuth] tpl in
      match hosts with
      | [] => Panics "runtime error: index out of range [0] with length 0"
      | h0 :: _ => Returns (set_CommonName h0 tpl)
      end
    else if (0 <? length (IPAddresses tpl))%nat || (0 <? length (DNSNames tpl))%nat then
      Returns (set_ExtKeyUsage [ExtKeyUsageServerAuth] tpl)
    else Returns tpl in
  match tpl with
  | Returns tpl =>
    if (0 <? length (EmailAddresses tpl))%nat then
      Returns (set_ExtKeyUsage
                 (ExtKeyUsages tpl ++ [ExtKeyUsageCodeSigning; ExtKeyUsageEmailProtection]) tpl)
    else Returns tpl
  | other => other
  end.

(** [MakeCert]: how the call ends, and the writer after it. *)
Definition MakeCert {W : Type} `{Writer W} (ca : CARoot) (out : W) (clientCert : bool)
    (hosts : list string) : M (outcome (option error) * W) :=
  '(err, ca) ← (if bool_decide (cert ca = None) || bool_decide (key ca = None)
                then Load ca else mret (None, ca));
  match err with
  | Some e => mret (Returns (Some (wrapError "zcert.MakeCert: " e)), out)
  | None =>
  s ← randomSerialNumber;
  match s with
  | inr e => mret (Returns (Some (wrapError "zcert.MakeCert: generating serial number: " e)), out)
  | inl serial =>
  ou ← userAndHostname;
  notAfter ← time_Now;
  notBefore ← time_Now;
  let tpl :=
    {| SerialNumber := serial;
       Subject := {| Organization := ["zcert development certificate"];
                     OrganizationalUnit := [ou];
                     CommonName := "" |};
       SubjectKeyId := None;
       NotAfter := AddDate_years notAfter 1;
       NotBefore := notBefore;
       KeyUsage := Z.lor KeyUsageKeyEncipherment KeyUsageDigitalSignature;
       ExtKeyUsages := [];
       BasicConstraintsValid := true;
       IsCA := false;
       MaxPathLenZero := false;
       IPAddresses := []; EmailAddresses := []; URIs := []; DNSNames := [];
       PublicKey := None; Issuer := emptyName; SignedBy := None |} in
  let tpl := fold_left addHost hosts tpl in
  match setUsages clientCert hosts tpl with
  | Panics msg => mret (Panics msg, out)
  | Exits c => mret (Exits c, out)
  | Returns tpl =>
  k ← generateKey;
  match k with
  | inr e => mret (Returns (Some (wrapError "zcert.MakeCert: generating private key: " e)), out)
  | inl privKey =>
  let pubKey := Public privKey in
  match cert ca, key ca with
  | Some cacert, Some cakey =>
  c ← x509_CreateCertificate tpl cacert pubKey cakey;
  match c with
  | inr e => mret (Returns (Some (wrapError "zcert.MakeCert: generating certificate: " e)), out)
  | inl cert =>
  let privDER := x509_MarshalPKCS8PrivateKey privKey in
  '(err, out) ← Write out (pem_EncodeToMemory {| Type_ := "PRIVATE KEY"; Bytes := privDER |});
  match err with
  | Some e => mret (Returns (Some (wrapError "zcert.MakeCert: write private key: " e)), out)
  | None =>
  '(err, out) ← Write out (pem_EncodeToMemory {| Type_ := "CERTIFICATE"; Bytes := cert |});
  match err with
  | Some e => mret (Returns (Some (wrapError "zcert.MakeCert: write certificate key: " e)), out)
  | None => mret (Returns None, out)
  end end end
  | _, _ => mret (nilDereference, out)
  end end end end end.






End Zcert.
End zcert.

(* ===================================================================== *)
(** * Vocabulary of the statements                                        *)
(* ===================================================================== *)

Module Spec.
Import Go errors truststore zcert.

(** The contents of the two files of a root. *)
Definition certPEM (c : Certificate) : bytes :=
  pem_EncodeToMemory {| Type_ := "CERTIFICATE"; Bytes := derCertificate c |}.
Definition keyPEM (k : ecdsaPrivateKey) : bytes :=
  pem_EncodeToMemory {| Type_ := "PRIVATE KEY"; Bytes := derPKCS8 k |}.




(** *** Classification of a requested name, in the specification's words

    A name that parses as an IP literal is an IP entry; otherwise one
    that parses as an e-mail address whose parsed address is the name
    itself is an e-mail entry; otherwise one that parses as a URI with a
    scheme and a host is a URI entry; otherwise it is a DNS name. *)
Inductive Entry :=
| IPEntry (ip : IP)
| EmailEntry (address : string)
| URIEntry (uri : URL)
| DNSEntry (name : string).

Section Classification.
Context `{Parsers}.

Definition uriOrDNS (h : string) : Entry :=
  match url_Parse h with
  | Some u =>
    if bool_decide (Scheme u <> "" /\ Host_ u <> "") then URIEntry u else DNSEntry h
  | None => DNSEntry h
  end.

Definition classify (h : string) : Entry :=
  match net_ParseIP h with
  | Some ip => IPEntry ip
  | None =>
    match mail_ParseAddress h with
    | Some a => if bool_decide (addr_Address a = h) then EmailEntry h else uriOrDNS h
    | None => uriOrDNS h
    end
  end.

(** What the Go standard library answers on the five names of the
    specification's example. *)
Definition parsers_on_examples : Prop :=
  is_Some (net_ParseIP "10.0.0.1") /\
  (net_ParseIP "user@example.com" = None /\
   exists a, mail_ParseAddress "user@example.com" = Some a /\
             addr_Address a = "user@example.com") /\
  (net_ParseIP "https://example.com/path" = None /\
   mail_ParseAddress "https://example.com/path" = None /\
   exists u, url_Parse "https://example.com/path" = Some u /\
             Scheme u = "https" /\ Host_ u = "example.com") /\
  (net_ParseIP "example.com" = None /\
   mail_ParseAddress "example.com" = None /\
   exists u, url_Parse "example.com" = Some u /\ Scheme u = "") /\
  (net_ParseIP "*.example.com" = None /\
   mail_ParseAddress "*.example.com" = None /\
   exists u, url_Parse "*.example.com" = Some u /\ Scheme u = "").

End Classification.

Definition ipEntries (l : list Entry) : list IP :=
  omap (fun e => match e with IPEntry ip => Some ip | _ => None end) l.
Definition emailEntries (l : list Entry) : list string :=
  omap (fun e => match e with EmailEntry a => Some a | _ => None end) l.
Definition uriEntries (l : list Entry) : list URL :=
  omap (fun e => match e with URIEntry u => Some u | _ => None end) l.
Definition dnsEntries (l : list Entry) : list string :=
  omap (fun e => match e with DNSEntry n => Some n | _ => None end) l.

(** *** The certificate selector over a run of handshakes *)


Section Handshakes.
Context `{Host} `{Parsers}.



End Handshakes.

(** *** The fan-out over the trust stores *)

(** The aggregate of what the backends returned, in the specification's
    words: nil when none failed, else an error that carries the error
    of each backend that failed, in the order of the backends. *)
Definition aggregate (es : list (option error)) : option error :=
  match omap id es with
  | [] => None
  | failures => Some (groupError 0 failures (Z.of_nat (length failures)))
  end.

Section FanOut.
Context `{Host}.

(** [FanOut op before after stores w es w']: from [w] the operation
    [op] ran on every backend of [stores], one after the other, each run
    returning ([before] and [after] are what the loop prints around a
    run); [es] is what the runs returned, [w'] the world at the end. *)
Inductive FanOut (op : Store -> M (outcome (option error)))
    (before : Store -> M unit) (after : M unit)
    : list Store -> World -> list (option error) -> World -> Prop :=
| FanOut_nil (w : World) : FanOut op before after [] w [] w
| FanOut_cons (s : Store) (stores : list Store) (w w1 w2 : World)
    (e : option error) (es : list (option error)) :
    op s (snd (before s w)) = (Returns e, w1) ->
    FanOut op before after stores (snd (after w1)) es w2 ->
    FanOut op before after (s :: stores) w (e :: es) w2.

(** The backend's operation returns: it neither panics nor ends the
    process. *)
Definition returns (op : Store -> M (outcome (option error))) (s : Store) : Prop :=
  forall w, exists e w', op s w = (Returns e, w').

Definition Install_before (s : Store) : M unit :=
  fmt_Print ("Installing for " +:+ store_Name s +:+ "..." +:+ newline).
Definition Install_after : M unit := fmt_Print ("  done" +:+ newline).
Definition Uninstall_before (s : Store) : M unit :=
  fmt_Print ("Uninstalling for " +:+ store_Name s +:+ newline).
Definition Uninstall_after : M unit := mret tt.

End FanOut.

(** *** Privilege escalation *)

Section Escalation.
Context `{Host}.







End Escalation.

End Spec.

(* ===================================================================== *)
(** * Machines, parsers and worlds to run the model on                    *)
(* ===================================================================== *)

Module Examples.
Import Go errors truststore zcert Spec.

(** ** Reference parsers

    A small instance of [Parsers] after the three Go parsers, on the
    part of their input language that the examples use: dotted-quad
    IPv4 literals, bare addr-specs, and URIs of the form
    scheme://host/path. *)

Fixpoint splitOn (sep : ascii) (s : string) : list string :=
  match s with
  | EmptyString => [EmptyString]
  | String c s' =>
    if Ascii.eqb c sep then EmptyString :: splitOn sep s'
    else match splitOn sep s' with
         | [] => [String c EmptyString]
         | f :: fields => String c f :: fields
         end
  end.

Definition isDigit (c : ascii) : bool :=
  (48 <=? nat_of_ascii c)%nat && (nat_of_ascii c <=? 57)%nat.

Definition isLetter (c : ascii) : bool :=
  ((65 <=? nat_of_ascii c)%nat && (nat_of_ascii c <=? 90)%nat) ||
  ((97 <=? nat_of_ascii c)%nat && (nat_of_ascii c <=? 122)%nat).

Definition decimal (s : string) : Z :=
  fold_left (fun acc c => (acc * 10 + Z.of_nat (nat_of_ascii c - 48))%Z)
            (list_ascii_of_string s) 0%Z.

(** One field of a dotted quad: one to three digits, no leading zero,
    at most 255. *)
Definition decimalByte (s : string) : option Z :=
  let cs := list_ascii_of_string s in
  if (1 <=? length cs)%nat && (length cs <=? 3)%nat && forallb isDigit cs
     && negb ((2 <=? length cs)%nat && hasPrefix s "0")
     && (decimal s <=? 255)%Z
  then Some (decimal s) else None.

Definition ref_ParseIP (s : string) : option IP :=
  match splitOn "."%char s with
  | [a; b; c; d] =>
    match decimalByte a, decimalByte b, decimalByte c, decimalByte d with
    | Some a, Some b, Some c, Some d =>
      Some [0; 0; 0; 0; 0; 0; 0; 0; 0; 0; 255; 255; a; b; c; d]%Z
    | _, _, _, _ => None
    end
  | _ => None
  end.

Definition isAtext (c : ascii) : bool :=
  isLetter c || isDigit c ||
  existsb (Ascii.eqb c) (list_ascii_of_string "!#$%&'*+-/=?^_`{|}~").

Definition isDotAtom (s : string) : bool :=
  forallb (fun f => negb (String.eqb f "") && forallb isAtext (list_ascii_of_string f))
          (splitOn "."%char s).

Definition ref_ParseAddress (s : string) : option Address :=
  match splitOn "@"%char s with
  | [local; domain] =>
    if isDotAtom local && isDotAtom domain
    then Some {| addr_Name := ""; addr_Address := s |}
    else None
  | _ => None
  end.

(** The scheme of a URI and what follows the colon; no scheme when the
    text does not start with one. *)
Fixpoint getScheme (i : nat) (acc : string) (s : string) : option (string * string) :=
  match s with
  | EmptyString => Some ("", "")
  | String c s' =>
    if isLetter c then getScheme (S i) (acc +:+ String c "") s'
    else if isDigit c || existsb (Ascii.eqb c) (list_ascii_of_string "+-.") then
      match i with
      | O => Some ("", "")
      | S _ => getScheme (S i) (acc +:+ String c "") s'
      end
    else if Ascii.eqb c ":"%char then
      match i with
      | O => None                                 (* missing protocol scheme *)
      | S _ => Some (acc, s')
      end
    else Some ("", "")
  end.

Definition ref_Parse (s : string) : option URL :=
  match getScheme 0 "" s with
  | None => None
  | Some (EmptyString, _) =>
    match splitOn "/"%char s with
    | seg :: _ =>
      if Contains seg ":" then None
      else Some {| Scheme := ""; Host_ := ""; url_rest := s |}
    | [] => Some {| Scheme := ""; Host_ := ""; url_rest := s |}
    end
  | Some (scheme, rest) =>
    if hasPrefix rest "//" then
      match splitOn "/"%char rest with
      | _ :: _ :: host :: path =>
        Some {| Scheme := scheme; Host_ := host; url_rest := String.concat "/" path |}
      | _ => Some {| Scheme := scheme; Host_ := ""; url_rest := rest |}
      end
    else Some {| Scheme := scheme; Host_ := ""; url_rest := rest |}
  end.

#[export] Instance refParsers : Parsers := {
  net_ParseIP := ref_ParseIP;
  mail_ParseAddress := ref_ParseAddress;
  url_Parse := ref_Parse
}.

(** ** A Linux workstation

    No root, no sudo, no doas; certutil is installed and its first run
    fails on a read-only database. *)
Definition devEnv (name : string) : string :=
  if String.eqb name "CAROOT" then "/home/dev/ca" else "".

Definition devRun (n : nat) (cmd : Cmd) (f : gmap path node)
    : (string * option error) * gmap path node :=
  match n with
  | O => (("certutil: function failed: SEC_ERROR_READ_ONLY: security library: read-only database.",
           Some (errorString "exit status 255")), f)
  | S _ => (("", None), f)
  end.

#[export] Instance devHost : Host := {
  GOOS := linux;
  Getenv := devEnv;
  user_Current := Some {| Uid := "1000"; Username := "dev"; user_Name := "Dev Eloper" |};
  os_Hostname := Some "box";
  exec_LookPath name := if String.eqb name "certutil" then Some "/usr/bin/certutil" else None;
  run := devRun
}.

(** A process at its start on a disk without a root. *)
Definition world0 : World :=
  {| fs := ∅; rnd := [11; 22; 33; 44; 55; 66; 77; 88; 99; 110; 121; 132]%Z;
     clock := {| t_year := 2020; t_rest := 0 |};
     stdout := []; stderr := []; execlog := []; privWarning := false;
     userInfo := None; tmpseq := 0; heap := [];
     crypt32 := {| openFails := true; certs := []; enumErrno := 0 |} |}.

Definition rootedWorld : World := snd (Create zeroCARoot world0).

Definition devRootCert : path := fst StorePath.
Definition devRootKey : path := snd StorePath.

(** The certificate in a file. *)
Definition certInFile (w : World) (p : path) : option Certificate :=
  match fs w !! p with
  | Some (File _ [pemChunk {| Type_ := _; Bytes := derCertificate c |}]) => Some c
  | _ => None
  end.

Definition emptyCertificate : Certificate :=
  {| SerialNumber := 0; Subject := emptyName; SubjectKeyId := None;
     NotBefore := {| t_year := 0; t_rest := 0 |};
     NotAfter := {| t_year := 0; t_rest := 0 |};
     KeyUsage := 0; ExtKeyUsages := []; BasicConstraintsValid := false;
     IsCA := false; MaxPathLenZero := false;
     IPAddresses := []; EmailAddresses := []; URIs := []; DNSNames := [];
     PublicKey := None; Issuer := emptyName; SignedBy := None |}.

Definition storedRoot : Certificate :=
  default emptyCertificate (certInFile rootedWorld devRootCert).

(** The authority as [Load] has it. *)
Definition loadedCA : CARoot := snd (fst (Load zeroCARoot rootedWorld)).

(** The key file on its own. *)
Definition orphanWorld : World :=
  set_fs (delete devRootCert (fs rootedWorld)) rootedWorld.

Definition exampleHosts : list string :=
  ["10.0.0.1"; "user@example.com"; "https://example.com/path"; "example.com";
   "*.example.com"].

(** ** Scripted trust stores: on the system, and returning what the
    script says. *)
Record Scripted := {
  sc_name : string;
  sc_install : option error;
  sc_uninstall : option error
}.

#[export] Instance Scripted_Store : StoreImpl Scripted := {
  Name t := sc_name t;
  OnSystem _ := mret true;
  Verbose t _ := t;
  HasCert _ _ := mret false;
  Install t _ _ := mret (Returns (sc_install t));
  Uninstall t _ _ := mret (Returns (sc_uninstall t))
}.

Definition scriptedStores : list Store :=
  [ mkStore Scripted _ {| sc_name := "NSS"; sc_install := None;
                          sc_uninstall := None |};
    mkStore Scripted _ {| sc_name := "Java";
                          sc_install := Some (errorString "truststore.Java: exit status 1");
                          sc_uninstall := None |};
    mkStore Stub _ (stub "Darwin");
    mkStore Scripted _ {| sc_name := "Unix"; sc_install := None;
                          sc_uninstall := Some (errorString "truststore.Unix: exit status 1")
                       |} ].


(** ** A Windows machine whose ROOT store holds another certificate *)
Definition otherCertificate : Certificate :=
  {| SerialNumber := 7; Subject := emptyName; SubjectKeyId := None;
     NotBefore := {| t_year := 2019; t_rest := 0 |};
     NotAfter := {| t_year := 2029; t_rest := 0 |};
     KeyUsage := KeyUsageCertSign; ExtKeyUsages := []; BasicConstraintsValid := true;
     IsCA := true; MaxPathLenZero := false;
     IPAddresses := []; EmailAddresses := []; URIs := []; DNSNames := [];
     PublicKey := Some {| ofScalar := 5 |}; Issuer := emptyName;
     SignedBy := Some {| ofScalar := 5 |} |}.

Definition windowsWorld : World :=
  set_crypt32
    {| openFails := false;
       certs := [ {| EncodedCert := derCertificate otherCertificate;
                     dupFails := false; deleteFails := false |} ];
       enumErrno := CRYPT_E_NOT_FOUND |}
    world0.

(** ** A macOS machine, the process being root

    [security trust-settings-export] writes [exported] to the file it
    is given; the other commands succeed and change nothing. *)
Definition trustSettingsOfVersion (version : Z) : bytes :=
  [plistChunk (plDict [("trustVersion", plUint version); ("trustList", plDict [])])].

Definition macRun (exported : bytes) (n : nat) (cmd : Cmd) (f : gmap path node)
    : (string * option error) * gmap path node :=
  match Args cmd with
  | [_; "trust-settings-export"; "-d"; _] =>
    (("", None), <[["/tmp"; "trust-settings0"] := File (mode 6 0 0) exported]> f)
  | _ => (("", None), f)
  end.

Definition macHost (exported : bytes) : Host := {|
  GOOS := darwin;
  Getenv name := if String.eqb name "HOME" then "/Users/dev" else "";
  user_Current := Some {| Uid := "0"; Username := "root"; user_Name := "System Administrator" |};
  os_Hostname := Some "mac";
  exec_LookPath name := if String.eqb name "security" then Some "/usr/bin/security" else None;
  run := macRun exported
|}.

Definition macWorld : World :=
  set_fs (<[["/tmp"] := Dir (mode 7 7 7)]> ∅) world0.

End Examples.

(* ===================================================================== *)
(** * Theorems                                                            *)
(* ===================================================================== *)

Import Go errors truststore zcert Spec.

(** Unfolding of the state-transformer monad. *)
Ltac unM := unfold mbind, M_bind, mret, M_ret in *.

Section StoreFacts.
Context `{Host}.

(** The two paths are siblings in one directory, or both empty. *)
Lemma StorePath_shape :
  StorePath = ([], []) \/
  exists dir, dir <> [] /\
    StorePath = (dir ++ ["rootCA.pem"], dir ++ ["rootCA-key.pem"]).
Proof.
  unfold StorePath, filepath_Join, path_of_string.
  repeat case_bool_decide; repeat case_decide; simplify_eq; auto;
    right; eexists; (split; [|reflexivity]); intros Hnil;
    apply app_eq_nil in Hnil; destruct Hnil; discriminate.
Qed.

Lemma StorePath_cases rootCert rootKey :
  StorePath = (rootCert, rootKey) ->
  (rootCert = [] /\ rootKey = []) \/
  exists dir, dir <> [] /\ rootCert = dir ++ ["rootCA.pem"] /\
    rootKey = dir ++ ["rootCA-key.pem"] /\ filepath_Dir rootCert = dir.
Proof.
  intros HS. destruct StorePath_shape as [E | (dir & Hd & E)];
    rewrite E in HS; simplify_eq; auto.
  right. exists dir. repeat split; auto.
  unfold filepath_Dir. apply removelast_last.
Qed.

Lemma Exists_lookup (ca : CARoot) (w : World) rootCert rootKey :
  StorePath = (rootCert, rootKey) ->
  Exists ca w = (bool_decide (rootCert <> [] /\ is_Some (fs w !! rootCert)), w).
Proof.
  intros HS. unfold Exists, zcert.pathExists, os_Stat. rewrite HS. unM.
  destruct rootCert as [|c rc]; repeat case_bool_decide; try reflexivity; exfalso.
  all: try (match goal with H : is_Some None |- _ => destruct H; discriminate end).
  all: intuition congruence.
Qed.

Lemma Exists_absent (ca : CARoot) (w : World) rootCert rootKey :
  StorePath = (rootCert, rootKey) ->
  fs w !! rootCert = None ->
  Exists ca w = (false, w).
Proof.
  intros HS Hn. rewrite (Exists_lookup _ _ _ _ HS).
  rewrite bool_decide_eq_false_2; [done|]. intros [_ [x Hx]]. congruence.
Qed.


End StoreFacts.

(* --------------------------------------------------------------------- *)
(** ** The root on disk: Exists, New, Delete                             *)
(* --------------------------------------------------------------------- *)

Section RootOnDisk.
Context `{Host}.

(** C10. Existence of the authority is decided by the certificate file
    alone.  In every state in which the key file [rootCA-key.pem] is on
    disk and the certificate file [rootCA.pem] is not: [Exists] reports
    false; [Delete] returns nil and leaves the world, the orphan key file
    included, as it was; and [New] takes the creating branch: it is
    [Create] on a zero authority with [created] set, [Load] is not
    called. *)
Theorem C10_existence_is_the_certificate_file
    (ca : CARoot) (w : World) (rootCert rootKey : path) (k : node) :
  StorePath = (rootCert, rootKey) ->
  fs w !! rootCert = None ->
  fs w !! rootKey = Some k ->
  Exists ca w = (false, w) /\
  (Delete ca w = (None, w) /\ fs (snd (Delete ca w)) !! rootKey = Some k) /\
  New w = (let '((err, ca'), w') := Create zeroCARoot w in ((ca', true, err), w')).
Proof.
  intros HS Hc Hk.
  pose proof (Exists_absent ca w _ _ HS Hc) as HE.
  pose proof (Exists_absent zeroCARoot w _ _ HS Hc) as HE0.
  assert (HD : Delete ca w = (None, w)).
  { unfold Delete. unM. rewrite HE. reflexivity. }
  split; [exact HE|]. split.
  - split; [exact HD|]. rewrite HD. exact Hk.
  - unfold New. unM. rewrite HE0. cbn [negb].
    destruct (Create zeroCARoot w) as [[err ca'] w']. reflexivity.
Qed.

End RootOnDisk.

(* --------------------------------------------------------------------- *)
(** ** Creating and loading the root                                     *)
(* --------------------------------------------------------------------- *)

(** Case analysis on the next test of a run that is known to have ended
    in a given way. *)
Ltac step_in H :=
  match type of H with
  | context [match ?x with _ => _ end] =>
    lazymatch x with
    | context [match _ with _ => _ end] => fail
    | _ => destruct x eqn:?
    end
  end; try discriminate H.

Section CreateLoad.
Context `{Host}.

Lemma WriteFile_ok (p : path) (d : bytes) (perm : Z) (w w' : World) :
  ioutil_WriteFile p d perm w = (None, w') ->
  p <> [] /\ exists m, w' = set_fs (<[p := File m d]> (fs w)) w.
Proof.
  unfold ioutil_WriteFile. intros HW.
  destruct p as [|c p]; [discriminate|]. split; [discriminate|].
  repeat step_in HW; simplify_eq; eauto.
Qed.

Lemma CreateCertificate_ok (tpl parent : Certificate) pub priv (w w' : World) d :
  x509_CreateCertificate tpl parent pub priv w = (inl d, w') ->
  d = derCertificate (signedCertificate tpl parent pub priv) /\ fs w' = fs w.
Proof.
  unfold x509_CreateCertificate, rand_Read. unM. intros HC.
  repeat step_in HC; simplify_eq; auto.
Qed.

Lemma sibling_ne (dir : path) : dir ++ ["rootCA.pem"] <> dir ++ ["rootCA-key.pem"].
Proof. intros E. apply app_inv_head in E. discriminate. Qed.

(** What a successful [Create] leaves: the receiver holds the template
    and the key, the two files hold the signed template and the key. *)
Lemma Create_success (ca ca1 : CARoot) (w w1 : World) :
  Create ca w = ((None, ca1), w1) ->
  exists rootCert rootKey tpl priv m1 m2,
    StorePath = (rootCert, rootKey) /\ rootCert <> [] /\
    ca1 = with_root ca tpl priv /\
    PublicKey tpl = None /\
    fs w1 !! rootCert =
      Some (File m1 (certPEM (signedCertificate tpl tpl (Public priv) priv))) /\
    fs w1 !! rootKey = Some (File m2 (keyPEM priv)).
Proof.
  unfold Create. intros HC.
  destruct StorePath as [rootCert rootKey] eqn:HS.
  destruct (StorePath_cases _ _ HS) as [[-> ->] | (dir & Hdir & -> & -> & HD)].
  { rewrite bool_decide_eq_true_2 in HC by done. discriminate. }
  rewrite bool_decide_eq_false_2 in HC
    by (intros E; apply app_eq_nil in E; destruct E; discriminate).
  unM.
  destruct (Exists ca w) as [ex w0]. destruct ex; [discriminate|].
  destruct (os_MkdirAll _ _ w0) as [[e1|] wa]; [discriminate|].
  destruct (generateKey wa) as [[priv|e2] wb]; [|discriminate].
  destruct (randomSerialNumber wb) as [[serial|e3] wc]; [|discriminate].
  destruct (userAndHostname wc) as [ou wd].
  destruct (userAndHostname wd) as [cn we].
  unfold time_Now in HC.
  match type of HC with
  | context [x509_CreateCertificate ?t ?p ?a ?b ?w] =>
    destruct (x509_CreateCertificate t p a b w) as [[d|e4] wf] eqn:HCC; [|discriminate];
    set (tpl := t) in *
  end.
  apply CreateCertificate_ok in HCC as [-> _].
  match type of HC with
  | context [ioutil_WriteFile ?p ?d ?m ?w] =>
    destruct (ioutil_WriteFile p d m w) as [[e5|] wg] eqn:HW1; [discriminate|]
  end.
  match type of HC with
  | context [ioutil_WriteFile ?p ?d ?m ?w] =>
    destruct (ioutil_WriteFile p d m w) as [[e6|] wh] eqn:HW2; [discriminate|]
  end.
  apply WriteFile_ok in HW1 as [_ [m2 ->]]. apply WriteFile_ok in HW2 as [_ [m1 ->]].
  simplify_eq.
  exists (dir ++ ["rootCA.pem"]), (dir ++ ["rootCA-key.pem"]), tpl, priv, m1, m2.
  repeat split; auto.
  - intros E; apply app_eq_nil in E; destruct E; discriminate.
  - cbn. apply lookup_insert_eq.
  - cbn. rewrite lookup_insert_ne by apply sibling_ne. apply lookup_insert_eq.
Qed.


(** The template that [Create] keeps in memory never had a public
    key; the certificate it wrote carries the one of the new key. *)
Remark Create_keeps_template (ca ca1 : CARoot) (w w1 : World) :
  Create ca w = ((None, ca1), w1) ->
  exists tpl, cert ca1 = Some tpl /\ PublicKey tpl = None.
Proof.
  intros HC. apply Create_success in HC
    as (rc & rk & tpl & priv & m1 & m2 & _ & _ & -> & Hpub & _).
  exists tpl. split; [reflexivity | exact Hpub].
Qed.


End CreateLoad.

(* --------------------------------------------------------------------- *)
(** ** Deleting the root and starting over                               *)
(* --------------------------------------------------------------------- *)

Section DeleteNew.
Context `{Host}.







Lemma userAndHostname_frame (w : World) :
  exists u, userAndHostname w = (u, set_userInfo (Some u) w).
Proof.
  unfold userAndHostname. destruct w as [f r c o e l p ui t h s]; cbn.
  destruct ui as [u|]; eexists; reflexivity.
Qed.

Lemma generateKey_draw (w : World) v r :
  rnd w = v :: r -> generateKey w = (inl {| D := v |}, set_rnd r w).
Proof.
  intros Hr. unfold generateKey, ecdsa_GenerateKey, rand_Read. unM. rewrite Hr. reflexivity.
Qed.

Lemma randomSerialNumber_draw (w : World) v r :
  rnd w = v :: r ->
  randomSerialNumber w = (inl (v mod Z.shiftl 1 128)%Z, set_rnd r w).
Proof.
  intros Hr. unfold randomSerialNumber, rand_Int, rand_Read. unM. rewrite Hr. reflexivity.
Qed.

Lemma CreateCertificate_draw (tpl parent : Certificate) pub priv (w : World) v r :
  keyMismatch parent priv = false ->
  rnd w = v :: r ->
  x509_CreateCertificate tpl parent pub priv w =
    (inl (derCertificate (signedCertificate tpl parent pub priv)), set_rnd r w).
Proof.
  intros Hm Hr. unfold x509_CreateCertificate, rand_Read. unM. rewrite Hm, Hr. reflexivity.
Qed.




End DeleteNew.

(* --------------------------------------------------------------------- *)
(** ** Issuing a leaf certificate                                        *)
(* --------------------------------------------------------------------- *)

Section Issue.
Context `{Host} `{Parsers}.

(** One round of the loop appends the name's entry to the list of its
    kind and touches nothing else. *)
Lemma addHost_classify (tpl : Certificate) (h : string) :
  IPAddresses (addHost tpl h) = IPAddresses tpl ++ ipEntries [classify h] /\
  EmailAddresses (addHost tpl h) = EmailAddresses tpl ++ emailEntries [classify h] /\
  URIs (addHost tpl h) = URIs tpl ++ uriEntries [classify h] /\
  DNSNames (addHost tpl h) = DNSNames tpl ++ dnsEntries [classify h].
Proof.
  unfold addHost, classify, exactEmail, absoluteURI, uriOrDNS.
  destruct (net_ParseIP h) as [ip|]; [cbn; rewrite ?app_nil_r; auto|].
  destruct (mail_ParseAddress h) as [a|].
  - case_bool_decide; [cbn; rewrite ?app_nil_r; auto|].
    destruct (url_Parse h) as [u|]; [|cbn; rewrite ?app_nil_r; auto].
    repeat case_bool_decide; cbn; rewrite ?app_nil_r; auto; exfalso; tauto.
  - destruct (url_Parse h) as [u|]; [|cbn; rewrite ?app_nil_r; auto].
    repeat case_bool_decide; cbn; rewrite ?app_nil_r; auto; exfalso; tauto.
Qed.

(** The whole loop: each name is classified on its own, and the four
    lists grow in the order of the names. *)
Lemma hosts_loop (hosts : list string) : forall tpl : Certificate,
  let tpl' := fold_left addHost hosts tpl in
  IPAddresses tpl' = IPAddresses tpl ++ ipEntries (map classify hosts) /\
  EmailAddresses tpl' = EmailAddresses tpl ++ emailEntries (map classify hosts) /\
  URIs tpl' = URIs tpl ++ uriEntries (map classify hosts) /\
  DNSNames tpl' = DNSNames tpl ++ dnsEntries (map classify hosts).
Proof.
  induction hosts as [|h hosts IH]; intros tpl; cbn [fold_left map].
  - cbn. rewrite !app_nil_r. auto.
  - destruct (IH (addHost tpl h)) as (I1 & I2 & I3 & I4).
    destruct (addHost_classify tpl h) as (A1 & A2 & A3 & A4).
    cbn zeta. rewrite I1, I2, I3, I4, A1, A2, A3, A4.
    unfold ipEntries, emailEntries, uriEntries, dnsEntries.
    rewrite <- !app_assoc. repeat split; f_equal;
      destruct (classify h); reflexivity.
Qed.

(** [setUsages] leaves the four lists alone. *)
Lemma setUsages_names (clientCert : bool) (hosts : list string) (tpl tpl' : Certificate) :
  setUsages clientCert hosts tpl = Returns tpl' ->
  IPAddresses tpl' = IPAddresses tpl /\ EmailAddresses tpl' = EmailAddresses tpl /\
  URIs tpl' = URIs tpl /\ DNSNames tpl' = DNSNames tpl.
Proof.
  unfold setUsages. intros HU.
  destruct clientCert; [destruct hosts as [|h0 hosts]; [discriminate|]|];
    repeat (cbn in HU; step_in HU); cbn in HU; simplify_eq; cbn; auto.
Qed.

(** A [MakeCert] that returned nil wrote, after what the buffer held,
    the new key and then the certificate: the template after the loop
    and [setUsages], signed under the authority. *)
Lemma MakeCert_success (ca : CARoot) (out out' : bytes) (clientCert : bool)
    (hosts : list string) (w w' : World) :
  MakeCert ca out clientCert hosts w = ((Returns None, out'), w') ->
  exists (tpl0 tpl cacert : Certificate) (cakey priv : ecdsaPrivateKey),
    IPAddresses tpl0 = [] /\ EmailAddresses tpl0 = [] /\
    URIs tpl0 = [] /\ DNSNames tpl0 = [] /\
    setUsages clientCert hosts (fold_left addHost hosts tpl0) = Returns tpl /\
    out' = out ++ keyPEM priv ++ certPEM (signedCertificate tpl cacert (Public priv) cakey).
Proof.
  unfold MakeCert. unM. intros HM.
  match type of HM with context [(if ?b then Load ca else _) w] =>
    destruct ((if b then Load ca else (fun w0 => ((None, ca), w0))) w)
      as [[err ca0] w0] end.
  destruct err; [discriminate|].
  destruct (randomSerialNumber w0) as [[serial|e] w1]; [|discriminate].
  destruct (userAndHostname w1) as [ou w2].
  unfold time_Now in HM.
  match type of HM with context [setUsages _ _ (fold_left _ _ ?t)] => set (tpl0 := t) in * end.
  destruct (setUsages clientCert hosts (fold_left addHost hosts tpl0))
    as [tpl|msg|c] eqn:HU; try discriminate.
  destruct (generateKey w2) as [[priv|e] w3]; [|discriminate].
  destruct (cert ca0) as [cacert|]; [|discriminate].
  destruct (key ca0) as [cakey|]; [|discriminate].
  destruct (x509_CreateCertificate tpl cacert (Public priv) cakey w3)
    as [[d|e] w4] eqn:HC; [|discriminate].
  apply CreateCertificate_ok in HC as [-> _].
  cbn in HM. simplify_eq.
  exists tpl0, tpl, cacert, cakey, priv. repeat split; auto.
  rewrite <- app_assoc. reflexivity.
Qed.

(** The order of the tests, name by name. *)
Lemma classify_cascade (h : string) :
  (forall ip, net_ParseIP h = Some ip -> classify h = IPEntry ip) /\
  (net_ParseIP h = None ->
   (exists a, mail_ParseAddress h = Some a /\ addr_Address a = h) ->
   classify h = EmailEntry h) /\
  (net_ParseIP h = None ->
   ~ (exists a, mail_ParseAddress h = Some a /\ addr_Address a = h) ->
   forall u, url_Parse h = Some u -> Scheme u <> "" -> Host_ u <> "" ->
   classify h = URIEntry u) /\
  (net_ParseIP h = None ->
   ~ (exists a, mail_ParseAddress h = Some a /\ addr_Address a = h) ->
   (forall u, url_Parse h = Some u -> Scheme u = "" \/ Host_ u = "") ->
   classify h = DNSEntry h).
Proof.
  unfold classify, uriOrDNS. repeat split.
  - intros ip ->. reflexivity.
  - intros -> (a & -> & Ha). rewrite bool_decide_eq_true_2 by exact Ha. reflexivity.
  - intros -> Hno u Hu Hs Hh.
    destruct (mail_ParseAddress h) as [a|].
    + rewrite bool_decide_eq_false_2 by (intros Ha; apply Hno; eauto).
      rewrite Hu, bool_decide_eq_true_2 by auto. reflexivity.
    + rewrite Hu, bool_decide_eq_true_2 by auto. reflexivity.
  - intros -> Hno Hu.
    assert (HD : uriOrDNS h = DNSEntry h).
    { unfold uriOrDNS. destruct (url_Parse h) as [u|]; [|reflexivity].
      rewrite bool_decide_eq_false_2; [reflexivity|].
      intros [Hs Hh]. destruct (Hu u eq_refl); contradiction. }
    unfold uriOrDNS in HD.
    destruct (mail_ParseAddress h) as [a|]; [|exact HD].
    rewrite bool_decide_eq_false_2 by (intros Ha; apply Hno; eauto). exact HD.
Qed.

(** C1. Classification of the requested names.  For every list of
    names, the certificate a successful [MakeCert] signs and writes
    carries, as IP addresses, e-mail addresses, URIs and DNS names, the
    entries of the names in the order of the names, each name classified
    on its own by the cascade: IP literal, else e-mail address equal to
    the name, else URI with scheme and host, else DNS name.  With the
    answers of the Go parsers on the five names of the example:
    10.0.0.1 is an IP entry (not a DNS name), user@example.com an e-mail
    entry, https://example.com/path a URI entry, example.com and
    *.example.com DNS entries. *)
Theorem C1_identifier_classification (ca : CARoot) (clientCert : bool)
    (hosts : list string) (out' : bytes) (w w' : World) :
  parsers_on_examples ->
  MakeCert ca ([] : bytes) clientCert hosts w = ((Returns None, out'), w') ->
  (exists (leaf : Certificate) (priv : ecdsaPrivateKey),
     out' = keyPEM priv ++ certPEM leaf /\
     IPAddresses leaf = ipEntries (map classify hosts) /\
     EmailAddresses leaf = emailEntries (map classify hosts) /\
     URIs leaf = uriEntries (map classify hosts) /\
     DNSNames leaf = dnsEntries (map classify hosts)) /\
  (forall h,
     (forall ip, net_ParseIP h = Some ip -> classify h = IPEntry ip) /\
     (net_ParseIP h = None ->
      (exists a, mail_ParseAddress h = Some a /\ addr_Address a = h) ->
      classify h = EmailEntry h) /\
     (net_ParseIP h = None ->
      ~ (exists a, mail_ParseAddress h = Some a /\ addr_Address a = h) ->
      forall u, url_Parse h = Some u -> Scheme u <> "" -> Host_ u <> "" ->
      classify h = URIEntry u) /\
     (net_ParseIP h = None ->
      ~ (exists a, mail_ParseAddress h = Some a /\ addr_Address a = h) ->
      (forall u, url_Parse h = Some u -> Scheme u = "" \/ Host_ u = "") ->
      classify h = DNSEntry h)) /\
  ((exists ip, classify "10.0.0.1" = IPEntry ip) /\
   classify "10.0.0.1" <> DNSEntry "10.0.0.1" /\
   classify "user@example.com" = EmailEntry "user@example.com" /\
   (exists u, classify "https://example.com/path" = URIEntry u) /\
   classify "example.com" = DNSEntry "example.com" /\
   classify "*.example.com" = DNSEntry "*.example.com").
Proof.
  intros (Hip & (He1 & a & He2 & He3) & (Hu1 & Hu2 & u & Hu3 & Hu4 & Hu5)
          & (Hd1 & Hd2 & u1 & Hd3 & Hd4) & (Hw1 & Hw2 & u2 & Hw3 & Hw4)) HM.
  split; [|split; [exact classify_cascade|]].
  - apply MakeCert_success in HM
      as (tpl0 & tpl & cacert & cakey & priv & E1 & E2 & E3 & E4 & HU & ->).
    apply setUsages_names in HU as (U1 & U2 & U3 & U4).
    destruct (hosts_loop hosts tpl0) as (L1 & L2 & L3 & L4).
    rewrite E1, E2, E3, E4 in *. cbn [app] in *.
    eexists _, priv. split; [reflexivity|]. cbn. repeat split; congruence.
  - destruct Hip as [ip Hip]. unfold classify, uriOrDNS.
    rewrite Hip, He1, He2, Hu1, Hu2, Hu3, Hd1, Hd2, Hd3, Hw1, Hw2, Hw3.
    rewrite (bool_decide_eq_true_2 _ He3).
    rewrite (bool_decide_eq_true_2 (Scheme u <> "" /\ Host_ u <> ""))
      by (rewrite Hu4, Hu5; split; discriminate).
    rewrite (bool_decide_eq_false_2 (Scheme u1 <> "" /\ Host_ u1 <> "")) by tauto.
    rewrite (bool_decide_eq_false_2 (Scheme u2 <> "" /\ Host_ u2 <> "")) by tauto.
    repeat split; eauto; discriminate.
Qed.

(** C4, as the code has it.  [MakeCert] does not ask for a name: for
    every call with an empty list of names and [clientCert] false, on an
    authority that holds its certificate and the matching key and with
    three reads of the entropy source to come, it returns nil, having
    written to the buffer the new key and then a signed leaf certificate
    that carries no IP address, e-mail address, URI or DNS name and no
    extended key usage. *)
Theorem C4_empty_list_is_issued (ca : CARoot) (out : bytes) (w : World)
    (cacert : Certificate) (cakey : ecdsaPrivateKey) (s k n : Z) (rest : list Z) :
  cert ca = Some cacert ->
  key ca = Some cakey ->
  keyMismatch cacert cakey = false ->
  rnd w = s :: k :: n :: rest ->
  exists (leaf : Certificate) (w' : World),
    MakeCert ca out false [] w =
      ((Returns None, out ++ keyPEM {| D := k |} ++ certPEM leaf), w') /\
    SerialNumber leaf = (s mod Z.shiftl 1 128)%Z /\
    PublicKey leaf = Some (Public {| D := k |}) /\
    Issuer leaf = Subject cacert /\ SignedBy leaf = Some (Public cakey) /\
    IPAddresses leaf = [] /\ EmailAddresses leaf = [] /\
    URIs leaf = [] /\ DNSNames leaf = [] /\ ExtKeyUsages leaf = [].
Proof.
  intros Hc Hk Hm Hrnd. unfold MakeCert. unM.
  rewrite Hc, Hk.
  rewrite (bool_decide_eq_false_2 (Some cacert = None)) by discriminate.
  rewrite (bool_decide_eq_false_2 (Some cakey = None)) by discriminate.
  cbn [orb]. rewrite Hc, Hk.
  rewrite (randomSerialNumber_draw _ s (k :: n :: rest)) by exact Hrnd.
  match goal with |- context [userAndHostname ?w0] =>
    destruct (userAndHostname_frame w0) as [ou ->] end.
  unfold time_Now. cbn [fold_left setUsages IPAddresses DNSNames EmailAddresses length
                        Nat.ltb Nat.leb orb].
  rewrite (generateKey_draw _ k (n :: rest)) by reflexivity.
  rewrite (CreateCertificate_draw _ _ _ _ _ n rest) by (exact Hm || reflexivity).
  cbn [Write Buffer_Writer]. unM.
  eexists _, _. split.
  { rewrite <- app_assoc. reflexivity. }
  cbn. repeat split; reflexivity.
Qed.

(** With [clientCert] set and no name, [hosts[0]] panics: no error is
    returned and nothing is written. *)
Remark MakeCert_client_without_name_panics (ca : CARoot) (out : bytes) (w : World)
    (cacert : Certificate) (cakey : ecdsaPrivateKey) (s : Z) (rest : list Z) :
  cert ca = Some cacert ->
  key ca = Some cakey ->
  rnd w = s :: rest ->
  exists w',
    MakeCert ca out true [] w =
      ((Panics "runtime error: index out of range [0] with length 0", out), w').
Proof.
  intros Hc Hk Hrnd. unfold MakeCert. unM.
  rewrite Hc, Hk.
  rewrite (bool_decide_eq_false_2 (Some cacert = None)) by discriminate.
  rewrite (bool_decide_eq_false_2 (Some cakey = None)) by discriminate.
  cbn [orb].
  rewrite (randomSerialNumber_draw _ s rest) by exact Hrnd.
  match goal with |- context [userAndHostname ?w0] =>
    destruct (userAndHostname_frame w0) as [ou ->] end.
  unfold time_Now. cbn [fold_left setUsages]. eexists. reflexivity.
Qed.

End Issue.

(* --------------------------------------------------------------------- *)
(** ** The certificate selector                                          *)
(* --------------------------------------------------------------------- *)

Section Selector.
Context `{Host} `{Parsers}.




















End Selector.

(* --------------------------------------------------------------------- *)
(** ** The fan-out over the trust stores                                 *)
(* --------------------------------------------------------------------- *)

Section FanOutFacts.
Context `{Host}.

(** An unbounded group keeps every error appended to it. *)
Lemma Append_all (es : list (option error)) : forall g : Group,
  MaxSize g = 0%Z ->
  let g' := fold_left (fun g e => snd (Append g e)) es g in
  MaxSize g' = 0%Z /\
  errs g' = errs g ++ omap id es /\
  nerrs g' = (nerrs g + Z.of_nat (length (omap id es)))%Z.
Proof.
  induction es as [|e es IH]; intros g Hg; cbn [fold_left].
  - cbn. rewrite app_nil_r. repeat split; auto; lia.
  - destruct e as [e|]; cbn [Append snd].
    + destruct (IH {| MaxSize := MaxSize g;
                      errs := if bool_decide (MaxSize g = 0%Z) || (Len g <? MaxSize g)%Z
                              then errs g ++ [e] else errs g;
                      nerrs := (nerrs g + 1)%Z |} Hg) as (I1 & I2 & I3).
      cbn zeta. rewrite I1, I2, I3. cbn [errors.MaxSize errors.errs errors.nerrs].
      rewrite (bool_decide_eq_true_2 _ Hg). cbn [orb omap id length option_bind].
      rewrite <- app_assoc. repeat split; auto.
      cbn. rewrite Nat2Z.inj_succ. unfold omap. lia.
    + destruct (IH g Hg) as (I1 & I2 & I3). cbn zeta. rewrite I1, I2, I3. auto.
Qed.

Lemma ErrorOrNil_aggregate (es : list (option error)) :
  ErrorOrNil (fold_left (fun g e => snd (Append g e)) es (NewGroup 0)) = aggregate es.
Proof.
  destruct (Append_all es (NewGroup 0) eq_refl) as (I1 & I2 & I3).
  unfold ErrorOrNil, asError, Len, aggregate. cbn zeta in *.
  rewrite I1, I2, I3. cbn [NewGroup errors.errs errors.nerrs app].
  destruct (omap id es) as [|x l].
  - reflexivity.
  - rewrite bool_decide_eq_false_2 by (cbn; lia). f_equal.
Qed.

Lemma aggregate_nil_iff (es : list (option error)) :
  aggregate es = None <-> Forall (fun e => e = None) es.
Proof.
  unfold aggregate. split.
  - intros Ha. destruct (omap id es) as [|x l] eqn:Ho; [|discriminate].
    clear Ha. induction es as [|[e|] es IH]; cbn in Ho; try discriminate; constructor; auto.
  - intros Hall. replace (omap id es) with (@nil error); [reflexivity|].
    induction Hall as [|e es -> _ IH]; cbn; auto.
Qed.

Lemma aggregate_carries (es : list (option error)) (e : error) :
  In (Some e) es ->
  exists failures, aggregate es = Some (groupError 0 failures (Z.of_nat (length failures))) /\
    failures = omap id es /\ In e failures.
Proof.
  intros Hin. unfold aggregate.
  assert (He : In e (omap id es)).
  { apply list_elem_of_In, list_elem_of_omap. exists (Some e).
    split; [apply list_elem_of_In; exact Hin | reflexivity]. }
  destruct (omap id es) as [|x l]; [destruct He|]. eauto.
Qed.

(** The loops are the fan-out. *)
Lemma Install_loop_FanOut rootCert cacert (stores : list Store) :
  forall (w w' : World) (es : list (option error)) (g : Group),
  FanOut (fun s => store_Install s rootCert cacert) Install_before Install_after
         stores w es w' ->
  Install_loop stores rootCert cacert g w =
    (Returns (fold_left (fun g e => snd (Append g e)) es g), w').
Proof.
  induction stores as [|s stores IH]; intros w w' es g HF; inversion HF; subst.
  - reflexivity.
  - cbn [Install_loop fold_left]. unM.
    unfold Install_before in *. destruct (fmt_Print _ w) as [[] wa]. cbn [snd] in *.
    match goal with Hop : store_Install _ _ _ _ = _ |- _ => rewrite Hop end.
    destruct (Append g e) as [b g1]. cbn [snd].
    unfold Install_after in *. destruct (fmt_Print _ w1) as [[] wb]. cbn [snd] in *.
    apply IH. assumption.
Qed.

Lemma Uninstall_loop_FanOut rootCert cacert (stores : list Store) :
  forall (w w' : World) (es : list (option error)) (g : Group),
  FanOut (fun s => store_Uninstall s rootCert cacert) Uninstall_before Uninstall_after
         stores w es w' ->
  Uninstall_loop stores rootCert cacert g w =
    (Returns (fold_left (fun g e => snd (Append g e)) es g), w').
Proof.
  induction stores as [|s stores IH]; intros w w' es g HF; inversion HF; subst.
  - reflexivity.
  - cbn [Uninstall_loop fold_left]. unM.
    unfold Uninstall_before in *. destruct (fmt_Print _ w) as [[] wa]. cbn [snd] in *.
    match goal with Hop : store_Uninstall _ _ _ _ = _ |- _ => rewrite Hop end.
    destruct (Append g e) as [b g1]. cbn [snd].
    apply IH. assumption.
Qed.

(** Backends that return are all run. *)
Lemma FanOut_total (op : Store -> M (outcome (option error)))
    (before : Store -> M unit) (after : M unit) (stores : list Store) :
  Forall (returns op) stores ->
  forall w, exists es w', FanOut op before after stores w es w' /\
                          length es = length stores.
Proof.
  induction 1 as [|s stores Hs _ IH]; intros w.
  - exists [], w. split; [constructor | reflexivity].
  - destruct (Hs (snd (before s w))) as (e & w1 & Hop).
    destruct (IH (snd (after w1))) as (es & w2 & HF & Hlen).
    exists (e :: es), w2. split; [econstructor; eauto | cbn; congruence].
Qed.

Lemma Install_loaded (known : list Store) (ca : CARoot) (w : World) cacert :
  cert ca = Some cacert ->
  Install known ca w =
    (let '(stores, w1) := Find known (Verbose ca) w in
     match stores with
     | [] => (Returns (Some (errorString "no compatible truststores found")), w1)
     | _ =>
       let '(r, w2) := Install_loop stores (fst StorePath) cacert (NewGroup 0) w1 in
       (match r with
        | Returns g => Returns (ErrorOrNil g)
        | Panics msg => Panics msg
        | Exits c => Exits c
        end, w2)
     end).
Proof.
  intros Hc. unfold Install. unM. rewrite Hc.
  rewrite (bool_decide_eq_false_2 (Some cacert = None)) by discriminate.
  destruct (Find known (Verbose ca) w) as [stores w1].
  destruct stores as [|s stores]; [reflexivity|].
  rewrite bool_decide_eq_false_2 by discriminate.
  destruct StorePath as [rootCert rootKey]. rewrite Hc. cbn [fst].
  destruct (Install_loop _ _ _ _ w1) as [[g|msg|c] w2]; reflexivity.
Qed.

Lemma Uninstall_loaded (known : list Store) (ca : CARoot) (w : World) cacert :
  cert ca = Some cacert ->
  Uninstall known ca w =
    (let '(stores, w1) := Find known (Verbose ca) w in
     match stores with
     | [] => (Returns (Some (errorString "no compatible truststores found")), w1)
     | _ =>
       let '(r, w2) := Uninstall_loop stores (fst StorePath) cacert (NewGroup 0) w1 in
       (match r with
        | Returns g => Returns (ErrorOrNil g)
        | Panics msg => Panics msg
        | Exits c => Exits c
        end, w2)
     end).
Proof.
  intros Hc. unfold Uninstall. unM. rewrite Hc.
  rewrite (bool_decide_eq_false_2 (Some cacert = None)) by discriminate.
  destruct (Find known (Verbose ca) w) as [stores w1].
  destruct stores as [|s stores]; [reflexivity|].
  rewrite bool_decide_eq_false_2 by discriminate.
  destruct StorePath as [rootCert rootKey]. rewrite Hc. cbn [fst].
  destruct (Uninstall_loop _ _ _ _ w1) as [[g|msg|c] w2]; reflexivity.
Qed.

(** Where no backend is ever found, [Install] and [Uninstall] return an
    error, loaded or not. *)
Lemma no_backend_is_an_error (known : list Store) :
  (forall v w0, fst (Find known v w0) = []) ->
  forall (ca : CARoot) (w : World),
    (exists e w', Install known ca w = (Returns (Some e), w')) /\
    (exists e w', Uninstall known ca w = (Returns (Some e), w')).
Proof.
  intros Hnone ca w. unfold Install, Uninstall. unM.
  destruct ((if bool_decide (cert ca = None) then Load ca
             else (fun w0 => ((None, ca), w0))) w) as [[err ca1] w1].
  destruct err as [e|]; [split; eauto|].
  pose proof (Hnone (Verbose ca1) w1) as Hn.
  destruct (Find known (Verbose ca1) w1) as [stores w2]. cbn in Hn. subst stores.
  cbn. split; eauto.
Qed.

(** C7. The fan-out of [Install] and [Uninstall] over the trust stores,
    for an authority that holds its certificate and backends whose
    operation returns.  With no backend found, both return the error
    that no compatible trust store was found (and where no backend is
    ever found they return an error whether the authority is loaded or
    not).  Otherwise the operation runs on every backend found, one
    after the other and whatever the earlier ones returned, and the call
    returns the aggregate of what they returned: nil exactly when every
    backend returned nil, and else a group that carries the error of
    each backend that failed. *)
Theorem C7_trust_store_fan_out (known : list Store) (ca : CARoot) (w : World)
    (cacert : Certificate) :
  let found := Find known (Verbose ca) w in
  let stores := fst found in
  let rootCert := fst StorePath in
  cert ca = Some cacert ->
  Forall (returns (fun s => store_Install s rootCert cacert)) stores ->
  Forall (returns (fun s => store_Uninstall s rootCert cacert)) stores ->
  (stores = [] ->
     Install known ca w =
       (Returns (Some (errorString "no compatible truststores found")), snd found) /\
     Uninstall known ca w =
       (Returns (Some (errorString "no compatible truststores found")), snd found)) /\
  ((forall v w0, fst (Find known v w0) = []) ->
     forall ca0 w0,
       (exists e w', Install known ca0 w0 = (Returns (Some e), w')) /\
       (exists e w', Uninstall known ca0 w0 = (Returns (Some e), w'))) /\
  (stores <> [] ->
     (exists es w',
        FanOut (fun s => store_Install s rootCert cacert) Install_before Install_after
               stores (snd found) es w' /\
        length es = length stores /\
        Install known ca w = (Returns (aggregate es), w')) /\
     (exists es w',
        FanOut (fun s => store_Uninstall s rootCert cacert) Uninstall_before Uninstall_after
               stores (snd found) es w' /\
        length es = length stores /\
        Uninstall known ca w = (Returns (aggregate es), w'))) /\
  (forall es : list (option error),
     (aggregate es = None <-> Forall (fun e => e = None) es) /\
     (forall e, In (Some e) es ->
        exists failures,
          aggregate es = Some (groupError 0 failures (Z.of_nat (length failures))) /\
          failures = omap id es /\ In e failures)).
Proof.
  intros found stores rootCert Hc HI HU.
  pose proof (Install_loaded known ca w cacert Hc) as EI.
  pose proof (Uninstall_loaded known ca w cacert Hc) as EU.
  fold found in EI, EU. destruct found as [stores0 w1] eqn:Hf.
  cbn [fst snd] in *. subst stores.
  split; [|split; [|split]].
  - intros ->. split; assumption.
  - apply no_backend_is_an_error.
  - intros Hne. split.
    + destruct (FanOut_total _ Install_before Install_after stores0 HI w1)
        as (es & w2 & HF & Hlen).
      exists es, w2. repeat split; auto.
      rewrite EI. destruct stores0 as [|s l]; [done|].
      fold rootCert. rewrite (Install_loop_FanOut _ _ _ _ _ _ _ HF).
      rewrite ErrorOrNil_aggregate. reflexivity.
    + destruct (FanOut_total _ Uninstall_before Uninstall_after stores0 HU w1)
        as (es & w2 & HF & Hlen).
      exists es, w2. repeat split; auto.
      rewrite EU. destruct stores0 as [|s l]; [done|].
      fold rootCert. rewrite (Uninstall_loop_FanOut _ _ _ _ _ _ _ HF).
      rewrite ErrorOrNil_aggregate. reflexivity.
  - intros es. split; [apply aggregate_nil_iff | apply aggregate_carries].
Qed.

End FanOutFacts.

(* --------------------------------------------------------------------- *)
(** ** Privilege escalation                                              *)
(* --------------------------------------------------------------------- *)

Section EscalationFacts.
Context `{Host}.














End EscalationFacts.

(* --------------------------------------------------------------------- *)
(** ** The Windows and macOS backends                                    *)
(* --------------------------------------------------------------------- *)

Import Examples.

(** Once the store is open and the enumeration has come to its end,
    [Windows.Uninstall] returns nil, whether a certificate was deleted
    or not. *)
Remark Windows_Uninstall_ignores_not_found (t : Windows) (rootCert : path)
    (caCert : Certificate) (w w' : World) (deletedAny : bool) :
  openFails (crypt32 w) = false ->
  deleteCertsWithSerial (SerialNumber caCert) w = ((deletedAny, None), w') ->
  Windows_Uninstall t rootCert caCert w = (None, w').
Proof.
  intros Ho Hd. unfold Windows_Uninstall, openWindowsRootStore. unM.
  rewrite Ho, Hd. reflexivity.
Qed.

(** C5. [Windows.Uninstall] where the store holds no certificate with
    the serial number of the root (the store opens and holds one other
    certificate, the enumeration ends as it should): nothing is deleted
    and the call returns nil, not an error. *)
Theorem C5_Windows_Uninstall_not_found_returns_nil :
  deleteCertsWithSerial (SerialNumber storedRoot) windowsWorld
    = ((false, None), windowsWorld) /\
  Windows_Uninstall {| windows_verbose := false |} devRootCert storedRoot windowsWorld
    = (None, windowsWorld).
Proof. split; vm_compute; reflexivity. Qed.

(** Trust settings of a version other than 1 end the process. *)
Remark unsupported_trust_version_is_fatal `{Host} (caCert : Certificate)
    (plistRoot : list (string * plistValue)) (v : Z) (w : World) :
  mapIndex plistRoot "trustVersion" = Some (plUint v) ->
  v <> 1%Z ->
  fst (patchTrustSettings caCert plistRoot w) = Exits 1.
Proof.
  intros Hv Hne. unfold patchTrustSettings. rewrite Hv.
  rewrite bool_decide_eq_true_2 by exact Hne. reflexivity.
Qed.

(** C6. [Darwin.Install] on a machine whose exported trust settings
    have version 2: the two security commands succeed, and the call
    does not return: the process exits with status 1, the message on
    standard error and the temporary file left behind. *)
Theorem C6_Darwin_Install_exits_the_process :
  let r := @Darwin_Install (macHost (trustSettingsOfVersion 2)) {| darwin_verbose := false |}
             ["/Users/dev"; "ca"; "rootCA.pem"] storedRoot macWorld in
  fst r = Exits 1 /\
  stderr (snd r) = ["ERROR: unsupported trust settings version:"] /\
  is_Some (fs (snd r) !! ["/tmp"; "trust-settings0"]).
Proof.
  cbv zeta. split; [vm_compute; reflexivity|]. split; [vm_compute; reflexivity|].
  vm_compute. eexists. reflexivity.
Qed.

(** With version 1 the same call returns nil, and the temporary file is
    gone. *)
Example Darwin_Install_version_1 :
  let r := @Darwin_Install (macHost (trustSettingsOfVersion 1)) {| darwin_verbose := false |}
             ["/Users/dev"; "ca"; "rootCA.pem"] storedRoot macWorld in
  fst r = Returns None /\ fs (snd r) !! ["/tmp"; "trust-settings0"] = None.
Proof. cbv zeta. split; vm_compute; reflexivity. Qed.

(** An export that is no property list: the parse error is dropped, the
    map stays nil and the type assertion on [trustVersion] panics. *)
Example Darwin_Install_unparsable_export :
  fst (@Darwin_Install (macHost [textChunk "not a property list"])
         {| darwin_verbose := false |}
         ["/Users/dev"; "ca"; "rootCA.pem"] storedRoot macWorld)
  = Panics "interface conversion: interface {} is not uint64".
Proof. vm_compute. reflexivity. Qed.

(* --------------------------------------------------------------------- *)
(** ** The statements on a workstation                                   *)
(* --------------------------------------------------------------------- *)

Lemma devStorePath : @StorePath devHost = (devRootCert, devRootKey).
Proof. vm_compute. reflexivity. Qed.

Lemma C10_existence_is_the_certificate_file_witness :
  fs orphanWorld !! devRootKey = Some (File (mode 4 0 0) (keyPEM {| D := 11 |})) /\
  Exists zeroCARoot orphanWorld = (false, orphanWorld) /\
  Delete zeroCARoot orphanWorld = (None, orphanWorld).
Proof.
  assert (Hc : fs orphanWorld !! devRootCert = None) by (vm_compute; reflexivity).
  assert (Hk : fs orphanWorld !! devRootKey = Some (File (mode 4 0 0) (keyPEM {| D := 11 |})))
    by (vm_compute; reflexivity).
  destruct (C10_existence_is_the_certificate_file zeroCARoot orphanWorld
              devRootCert devRootKey _ devStorePath Hc Hk) as (HE & [HD _] & _).
  repeat split; assumption.
Defined.



Lemma refParsers_on_examples : @parsers_on_examples refParsers.
Proof.
  unfold parsers_on_examples.
  split; [eexists; vm_compute; reflexivity|].
  split; [split; [vm_compute; reflexivity | eexists; split; vm_compute; reflexivity]|].
  split.
  { split; [vm_compute; reflexivity|]. split; [vm_compute; reflexivity|].
    eexists. split; [vm_compute; reflexivity|]. split; vm_compute; reflexivity. }
  split.
  { split; [vm_compute; reflexivity|]. split; [vm_compute; reflexivity|].
    eexists. split; vm_compute; reflexivity. }
  split; [vm_compute; reflexivity|]. split; [vm_compute; reflexivity|].
  eexists. split; vm_compute; reflexivity.
Qed.

Lemma C1_identifier_classification_witness :
  @parsers_on_examples refParsers /\
  exists leaf priv,
    snd (fst (MakeCert loadedCA ([] : bytes) false exampleHosts rootedWorld))
      = keyPEM priv ++ certPEM leaf /\
    length (IPAddresses leaf) = 1%nat /\
    EmailAddresses leaf = ["user@example.com"] /\
    length (URIs leaf) = 1%nat /\
    DNSNames leaf = ["example.com"; "*.example.com"].
Proof.
  split; [exact refParsers_on_examples|].
  destruct (C1_identifier_classification loadedCA false exampleHosts
              (snd (fst (MakeCert loadedCA ([] : bytes) false exampleHosts rootedWorld)))
              rootedWorld
              (snd (MakeCert loadedCA ([] : bytes) false exampleHosts rootedWorld))
              refParsers_on_examples)
    as ((leaf & priv & Hout & Hip & Hem & Hur & Hdn) & _ & _).
  - vm_compute. reflexivity.
  - exists leaf, priv. split; [exact Hout|].
    rewrite Hip, Hem, Hur, Hdn. repeat split; vm_compute; reflexivity.
Defined.

(** C4, as the specification has it, fails: on the loaded authority a
    call with no name and [clientCert] false returns nil and writes a
    key and a certificate without names. *)
Lemma C4_empty_list_counterexample :
  ~ (forall (ca : CARoot) (out : bytes) (clientCert : bool) (w : World),
       exists e out' w',
         MakeCert ca out clientCert [] w = ((Returns (Some e), out'), w')) /\
  exists leaf,
    fst (MakeCert loadedCA ([] : bytes) false [] rootedWorld)
      = (Returns None, keyPEM {| D := 55 |} ++ certPEM leaf) /\
    DNSNames leaf = [] /\ IPAddresses leaf = [] /\
    EmailAddresses leaf = [] /\ URIs leaf = [].
Proof.
  split.
  - intros Hclaim. destruct (Hclaim loadedCA [] false rootedWorld) as (e & out' & w' & HM).
    vm_compute in HM. discriminate HM.
  - eexists. split; [vm_compute; reflexivity|]. repeat split; reflexivity.
Qed.

Lemma C4_empty_list_is_issued_witness :
  cert loadedCA = Some storedRoot /\
  exists leaf w',
    MakeCert loadedCA ([] : bytes) false [] rootedWorld =
      ((Returns None, keyPEM {| D := 55 |} ++ certPEM leaf), w') /\
    DNSNames leaf = [].
Proof.
  assert (Hc : cert loadedCA = Some storedRoot) by (vm_compute; reflexivity).
  split; [exact Hc|].
  destruct (C4_empty_list_is_issued loadedCA [] rootedWorld storedRoot {| D := 11 |}
              44 55 66 [77; 88; 99; 110; 121; 132]%Z Hc)
    as (leaf & w' & HM & _ & _ & _ & _ & _ & _ & _ & Hdn & _).
  - vm_compute. reflexivity.
  - vm_compute. reflexivity.
  - vm_compute. reflexivity.
  - exists leaf, w'. split; [exact HM | exact Hdn].
Defined.


Lemma C7_trust_store_fan_out_witness :
  cert loadedCA = Some storedRoot /\
  length (fst (Find scriptedStores (Verbose loadedCA) rootedWorld)) = 3%nat /\
  exists es w',
    length es = 3%nat /\
    Install scriptedStores loadedCA rootedWorld = (Returns (aggregate es), w') /\
    fst (Install scriptedStores loadedCA rootedWorld)
      = Returns (Some (groupError 0 [errorString "truststore.Java: exit status 1"] 1)).
Proof.
  assert (Hc : cert loadedCA = Some storedRoot) by (vm_compute; reflexivity).
  assert (Hn : length (fst (Find scriptedStores (Verbose loadedCA) rootedWorld)) = 3%nat)
    by (vm_compute; reflexivity).
  split; [exact Hc|]. split; [exact Hn|].
  destruct (C7_trust_store_fan_out scriptedStores loadedCA rootedWorld storedRoot Hc)
    as (_ & _ & Hfan & _).
  - repeat constructor; intros w; eexists _, _; reflexivity.
  - repeat constructor; intros w; eexists _, _; reflexivity.
  - destruct Hfan as [(es & w' & _ & Hlen & HI) _].
    + intros E. rewrite E in Hn. discriminate Hn.
    + exists es, w'. split; [congruence|]. split; [exact HI|].
      vm_compute. reflexivity.
Defined.

